(** * openGemini Python client: line protocol encoder and request builder

    A shallow embedding of [point.py] and [client.py].

    Python values are a tagged union [pyval]; a [str] is a [string] whose
    characters are code points below 256; a [dict] is an association list
    in insertion order, keyed by strings.  A call either returns, raises,
    or leaves the modelled fragment ([Unmodelled]: a dictionary key that is
    not a string, the text of a container).  What belongs to the host
    language or to third-party packages (the text of a float, the date
    parser, JSON, gzip, a fresh HTTP session) is taken as an interface. *)

From Stdlib Require Import ZArith List String Ascii Bool Lia PrimFloat.
From Stdlib Require Import DecimalString.
From Stdlib.Strings Require Import Byte.
From Stdlib Require Import Permutation.
Import ListNotations.

Set Warnings "-register-all,-inexact-float".

Local Open Scope string_scope.
Local Open Scope Z_scope.

(** ** Python values *)

(** [datetime.datetime], kept as the three quantities its subtraction
    uses: the proleptic Gregorian ordinal of the date ([toordinal()]), the
    second of the day, the microsecond, and the UTC offset in seconds of
    the attached [tzinfo] ([None] for a naive value). *)
Record datetime := mk_datetime {
  dt_ordinal : Z;
  dt_second : Z;
  dt_microsecond : Z;
  dt_utcoffset : option Z
}.

(** [datetime.timedelta], normalised: [0 <= seconds < 86400] and
    [0 <= microseconds < 10^6]. *)
Record timedelta := mk_timedelta {
  days : Z;
  seconds : Z;
  microseconds : Z
}.

Inductive pyval :=
| PNone
| PStr (s : string)
| PBool (b : bool)
| PInt (z : Z)
| PFloat (x : float)
| PList (l : list pyval)
| PTuple (l : list pyval)
| PDict (d : list (string * pyval))
| PDatetime (d : datetime).

Definition dict := list (string * pyval).

Inductive exn :=
| ValueError (arg : pyval)
| ParserError (msg : string)
| AttributeError
| TypeError
| AssertionError
| Exception (status_code : Z) (content : list byte).

Inductive result (A : Type) :=
| Ok (a : A)
| Raise (e : exn)
| Unmodelled.

Arguments Ok {A} a.
Arguments Raise {A} e.
Arguments Unmodelled {A}.

Definition bind {A B} (m : result A) (k : A -> result B) : result B :=
  match m with
  | Ok a => k a
  | Raise e => Raise e
  | Unmodelled => Unmodelled
  end.

Notation "x <- m ;; k" := (bind m (fun x => k))
  (at level 61, m at next level, right associativity).

(** [isinstance] for the classes the code tests.  [bool] is a subclass of
    [int], so a boolean is an [int] instance as well. *)
Definition is_None (v : pyval) : bool :=
  match v with PNone => true | _ => false end.

Definition as_str (v : pyval) : option string :=
  match v with PStr s => Some s | _ => None end.

Definition as_float (v : pyval) : option float :=
  match v with PFloat x => Some x | _ => None end.

Definition as_datetime (v : pyval) : option datetime :=
  match v with PDatetime d => Some d | _ => None end.

Definition as_seq (v : pyval) : option (list pyval) :=
  match v with PList l | PTuple l => Some l | _ => None end.

Definition isinstance_str (v : pyval) : bool :=
  match v with PStr _ => true | _ => false end.

Definition isinstance_bool (v : pyval) : bool :=
  match v with PBool _ => true | _ => false end.

Definition isinstance_float (v : pyval) : bool :=
  match v with PFloat _ => true | _ => false end.

Definition isinstance_int (v : pyval) : bool :=
  match v with PInt _ | PBool _ => true | _ => false end.

(** Truth value of an object, as [if x:] takes it. *)
Definition truthy (v : pyval) : bool :=
  match v with
  | PNone => false
  | PStr s => negb (s =? "")%string
  | PBool b => b
  | PInt z => negb (z =? 0)
  | PFloat x => negb (is_zero x)
  | PList l | PTuple l => match l with [] => false | _ => true end
  | PDict d => match d with [] => false | _ => true end
  | PDatetime _ => true
  end.

(** ** Strings *)

Definition dq : string := String "034"%char "".
Definition newline : string := String "010"%char "".

Definition str_int (z : Z) : string := NilZero.string_of_int (Z.to_int z).

Definition str_bool (b : bool) : string := if b then "True" else "False".

Definition lower_char (c : ascii) : ascii :=
  let n := N_of_ascii c in
  if ((65 <=? n) && (n <=? 90) || (192 <=? n) && (n <=? 214)
      || (216 <=? n) && (n <=? 222))%N
  then ascii_of_N (n + 32) else c.

Fixpoint lower (s : string) : string :=
  match s with
  | EmptyString => EmptyString
  | String c r => String (lower_char c) (lower r)
  end.

(** [s[1:]] *)
Definition drop_first (s : string) : string :=
  match s with
  | EmptyString => EmptyString
  | String _ r => r
  end.

(** [str.translate] with a table built by [str.maketrans] from a dict of
    single characters. *)
Definition table := list (ascii * string).

Fixpoint table_get (t : table) (c : ascii) : option string :=
  match t with
  | [] => None
  | (c', rep) :: t' => if Ascii.eqb c c' then Some rep else table_get t' c
  end.

Definition translate_char (t : table) (c : ascii) : string :=
  match table_get t c with
  | Some rep => rep
  | None => String c ""
  end.

Fixpoint translate (t : table) (s : string) : string :=
  match s with
  | EmptyString => EmptyString
  | String c r => translate_char t c ++ translate t r
  end.

Definition escape_measurement : table :=
  [ (","%char, "\,");
    (" "%char, "\ ");
    ("010"%char, "\n");
    ("009"%char, "\t");
    ("013"%char, "\r") ].

Definition escape_field_value : table :=
  [ ("034"%char, String "\" dq);
    ("\"%char, "\\") ].

Definition escape_name : table :=
  [ (","%char, "\,");
    (" "%char, "\ ");
    ("="%char, "\=");
    ("010"%char, "\n");
    ("009"%char, "\t");
    ("013"%char, "\r") ].

(** [str.encode("utf-8")] on code points below 256: one byte below 128,
    two bytes from 128 on. *)
Definition encode_char (c : ascii) : list byte :=
  let n := N_of_ascii c in
  if (n <? 128)%N then [byte_of_ascii c]
  else [byte_of_ascii (ascii_of_N (192 + n / 64));
        byte_of_ascii (ascii_of_N (128 + n mod 64))].

Fixpoint encode_utf8 (s : string) : list byte :=
  match s with
  | EmptyString => []
  | String c r => (encode_char c ++ encode_utf8 r)%list
  end.

(** ** Dictionaries *)

Fixpoint dict_get (k : string) (d : dict) : option pyval :=
  match d with
  | [] => None
  | (k', v) :: d' => if (k =? k')%string then Some v else dict_get k d'
  end.

(** [d[k] = v]: an existing key keeps its position, a new key goes last. *)
Fixpoint dict_set (k : string) (v : pyval) (d : dict) : dict :=
  match d with
  | [] => [(k, v)]
  | (k', v') :: d' =>
      if (k =? k')%string then (k, v) :: d' else (k', v') :: dict_set k v d'
  end.

(** [d.update(other)] *)
Definition dict_update (d other : dict) : dict :=
  fold_left (fun acc kv => dict_set (fst kv) (snd kv) acc) other d.

(** [d.get(k, default)] *)
Definition dict_get_default (k : string) (default : pyval) (d : dict) : pyval :=
  match dict_get k d with
  | Some v => v
  | None => default
  end.

(** [sorted(d.items())].  The items are (key, value) tuples; the keys of a
    dict are pairwise distinct, so the tuple order is the order of the
    keys, which for [str] is the lexicographic order of code points. *)
Fixpoint insert_item (x : string * pyval) (l : list (string * pyval))
  : list (string * pyval) :=
  match l with
  | [] => [x]
  | y :: l' => if String.leb (fst x) (fst y) then x :: l else y :: insert_item x l'
  end.

Fixpoint sorted (l : list (string * pyval)) : list (string * pyval) :=
  match l with
  | [] => []
  | x :: l' => insert_item x (sorted l')
  end.

(** ** The host interface of [point.py] *)

Class PointHost := {
  (** [str(x)] for a float [x] *)
  float_str : float -> string;
  (** [dateutil.parser.parse] *)
  parse : string -> result datetime
}.

Section Encoder.

Context {host : PointHost}.

(** [str(v)], which is also what an f-string field [{v}] inserts. *)
Definition py_str (v : pyval) : result string :=
  match v with
  | PNone => Ok "None"
  | PStr s => Ok s
  | PBool b => Ok (str_bool b)
  | PInt z => Ok (str_int z)
  | PFloat x => Ok (float_str x)
  | PList _ | PTuple _ | PDict _ | PDatetime _ => Unmodelled
  end.

(** ** Timestamp normaliser *)

(** The normalised [timedelta] of a number of microseconds. *)
Definition timedelta_of_micros (us : Z) : timedelta :=
  {| days := us / 86400000000;
     seconds := (us mod 86400000000) / 1000000;
     microseconds := (us mod 86400000000) mod 1000000 |}.

(** [a - b] on datetimes: both naive or both aware, else a TypeError. *)
Definition datetime_sub (a b : datetime) : result timedelta :=
  let base :=
    ((dt_ordinal a - dt_ordinal b) * 86400 + (dt_second a - dt_second b))
    * 1000000 + (dt_microsecond a - dt_microsecond b) in
  match dt_utcoffset a, dt_utcoffset b with
  | None, None => Ok (timedelta_of_micros base)
  | Some oa, Some ob => Ok (timedelta_of_micros (base + (ob - oa) * 1000000))
  | _, _ => Raise TypeError
  end.

(** [pytz.UTC.localize] *)
Definition UTC_localize (d : datetime) : result datetime :=
  match dt_utcoffset d with
  | None => Ok {| dt_ordinal := dt_ordinal d;
                  dt_second := dt_second d;
                  dt_microsecond := dt_microsecond d;
                  dt_utcoffset := Some 0 |}
  | Some _ => Raise (ValueError (PStr "Not naive datetime (tzinfo is already set)"))
  end.

(** 1970-01-01T00:00:00+00:00; the ordinal of that day is 719163. *)
Definition EPOCH : datetime :=
  {| dt_ordinal := 719163;
     dt_second := 0;
     dt_microsecond := 0;
     dt_utcoffset := Some 0 |}.

Definition _to_nanos (timestamp : datetime) : result Z :=
  delta <- datetime_sub timestamp EPOCH ;;
  let nanos_in_days := days delta * 86400 * 10 ^ 9 in
  let nanos_in_seconds := seconds delta * 10 ^ 9 in
  let nanos_in_micros := microseconds delta * 10 ^ 3 in
  Ok (nanos_in_days + nanos_in_seconds + nanos_in_micros).

Definition _convert_timestamp (timestamp : pyval) : result pyval :=
  if is_None timestamp then Ok (PStr "")
  else if isinstance_int timestamp then Ok timestamp
  else
    timestamp <- match as_str timestamp with
                 | Some s => d <- parse s ;; Ok (PDatetime d)
                 | None => Ok timestamp
                 end ;;
    match as_datetime timestamp with
    | Some d =>
        d <- match dt_utcoffset d with
             | None => UTC_localize d
             | Some _ => Ok d
             end ;;
        n <- _to_nanos d ;;
        Ok (PInt n)
    | None => Raise (ValueError timestamp)
    end.

End Encoder.

(** ** Point *)

Module Point.

Record t := mk {
  _tags : dict;
  _fields : dict;
  _measurement : pyval;
  _time : pyval;
  _write_precision : pyval;
  _field_types : dict
}.

Definition set_tags (d : dict) (self : t) : t :=
  mk d (_fields self) (_measurement self) (_time self)
     (_write_precision self) (_field_types self).

Definition set_fields (d : dict) (self : t) : t :=
  mk (_tags self) d (_measurement self) (_time self)
     (_write_precision self) (_field_types self).

Definition __init__ (measurement : pyval) : t :=
  {| _tags := [];
     _fields := [];
     _measurement := measurement;
     _time := PNone;
     _write_precision := PStr "ns";
     _field_types := [] |}.

Definition get_precision (self : t) : pyval := _write_precision self.

Definition time (time write_precision : pyval) (self : t) : t :=
  mk (_tags self) (_fields self) (_measurement self) time
     write_precision (_field_types self).

(** [for k, v in zip(keys, values): d[k] = v].  A key that is not a [str]
    is outside the dictionaries of this model. *)
Fixpoint store_pairs (kvs : list (pyval * pyval)) (d : dict) : result dict :=
  match kvs with
  | [] => Ok d
  | (k, v) :: rest =>
      match as_str k with
      | Some k => store_pairs rest (dict_set k v d)
      | None => Unmodelled
      end
  end.

Definition tag (key value : pyval) (self : t) : result t :=
  let self :=
    match as_str key with
    | Some k =>
        if isinstance_str value
        then set_tags (dict_set k value (_tags self)) self
        else self
    | None => self
    end in
  match as_seq key, as_seq value with
  | Some ks, Some vs =>
      if (List.length ks =? List.length vs)%nat then
        d <- store_pairs (combine ks vs) (_tags self) ;;
        Ok (set_tags d self)
      else Raise AssertionError
  | _, _ => Ok self
  end.

Definition field (field value : pyval) (self : t) : result t :=
  let self :=
    match as_str field with
    | Some k =>
        if isinstance_str value || isinstance_float value
           || isinstance_bool value || isinstance_int value
        then set_fields (dict_set k value (_fields self)) self
        else self
    | None => self
    end in
  match as_seq field, as_seq value with
  | Some ks, Some vs =>
      if (List.length ks =? List.length vs)%nat then
        d <- store_pairs (combine ks vs) (_fields self) ;;
        Ok (set_fields d self)
      else Raise AssertionError
  | _, _ => Ok self
  end.

Section WithHost.

Context {host : PointHost}.

(** The loop over [sorted(self._tags.items())], with the text gathered so
    far. *)
Fixpoint tags_loop (items : list (string * pyval)) (tags : string)
  : result string :=
  match items with
  | [] => Ok tags
  | (key, value) :: rest =>
      if is_None value then tags_loop rest tags
      else
        let tag := translate escape_name key in
        match as_str value with
        | Some v =>
            let value := translate escape_name v in
            if negb (tag =? "")%string && negb (value =? "")%string
            then tags_loop rest (tags ++ "," ++ tag ++ "=" ++ value)
            else tags_loop rest tags
        | None => Raise AttributeError
        end
  end.

(** The loop over [self._fields.items()].  The class tests come in the
    order of the source: str, bool, float, int. *)
Fixpoint fields_loop (items : list (string * pyval)) (fields : string)
  : result string :=
  match items with
  | [] => Ok fields
  | (key, value) :: rest =>
      if is_None value then fields_loop rest fields
      else
        let field := translate escape_name key in
        match as_str value with
        | Some s =>
            fields_loop rest
              (fields ++ "," ++ field ++ "=" ++ dq
                      ++ translate escape_field_value s ++ dq)
        | None =>
            if isinstance_bool value then
              text <- py_str value ;;
              fields_loop rest (fields ++ "," ++ field ++ "=" ++ lower text)
            else
              match as_float value with
              | Some x =>
                  if negb (is_finite x) then fields_loop rest fields
                  else
                    text <- py_str value ;;
                    fields_loop rest (fields ++ "," ++ field ++ "=" ++ text)
              | None =>
                  if isinstance_int value then
                    text <- py_str value ;;
                    fields_loop rest
                      (fields ++ "," ++ field ++ "=" ++ text ++ "i")
                  else fields_loop rest fields
              end
        end
  end.

(** [self._measurement.translate(escape_measurement)] *)
Definition measurement_text (self : t) : result string :=
  match as_str (_measurement self) with
  | Some m => Ok (translate escape_measurement m)
  | None => Raise AttributeError
  end.

(** [time != ''] *)
Definition not_empty_str (v : pyval) : bool :=
  match v with
  | PStr s => negb (s =? "")%string
  | _ => true
  end.

(** [f' {time}' if time != '' else ''] *)
Definition time_format (time : pyval) : result string :=
  if not_empty_str time then text <- py_str time ;; Ok (" " ++ text)
  else Ok "".

Definition to_line_protocol (self : t) : result string :=
  measurement <- measurement_text self ;;
  tags <- tags_loop (sorted (_tags self)) "" ;;
  fields <- fields_loop (_fields self) "" ;;
  if (fields =? "")%string then Ok ""
  else
    let fields := drop_first fields in
    time <- _convert_timestamp (_time self) ;;
    time_format <- time_format time ;;
    Ok (measurement ++ tags ++ " " ++ fields ++ time_format).

End WithHost.

End Point.

(** ** HTTP *)

(** What [Session.request] is called with. *)
Record http_request := mk_request {
  rq_method : string;
  rq_url : string;
  rq_auth : string * string;
  rq_data : option (list byte);
  rq_headers : dict;
  rq_params : dict
}.

(** The parts of a [requests.Response] the client reads; [json] is the
    outcome of [response.json()]. *)
Record http_response := mk_response {
  status_code : Z;
  content : list byte;
  json : result pyval
}.

(** A [requests.Session], as the answer it gives to each request. *)
Definition Session := http_request -> http_response.

(** ** The host interface of [client.py] *)

Class ClientHost := {
  (** [json.loads] on a [str] *)
  json_loads : string -> result pyval;
  (** [json.dumps] *)
  json_dumps : pyval -> result string;
  (** [gzip.compress] *)
  gzip_compress : list byte -> list byte;
  (** [requests.Session()] *)
  requests_Session : Session
}.

(** ** Client *)

Module OpenGeminiClient.

(** [_session] is [None] while the instance has no such attribute. *)
Record t := mk {
  _host : string;
  _port : Z;
  _username : string;
  _password : string;
  _database : pyval;
  _baseurl : string;
  _gzip : bool;
  _session : option Session;
  _headers : dict;
  _write_headers : dict
}.

Definition set_headers (h : dict) (self : t) : t :=
  mk (_host self) (_port self) (_username self) (_password self)
     (_database self) (_baseurl self) (_gzip self) (_session self)
     h (_write_headers self).

Definition set_write_headers (h : dict) (self : t) : t :=
  mk (_host self) (_port self) (_username self) (_password self)
     (_database self) (_baseurl self) (_gzip self) (_session self)
     (_headers self) h.

(** A method runs on the instance and yields its outcome, the instance
    afterwards and the requests it handed to the session, oldest first. *)
Definition M (A : Type) : Type := t -> result A * t * list http_request.

Definition ret {A} (a : A) : M A := fun self => (Ok a, self, []).

Definition mbind {A B} (m : M A) (k : A -> M B) : M B := fun self =>
  match m self with
  | (Ok a, self', sent) =>
      let '(r, self'', sent') := k a self' in (r, self'', (sent ++ sent')%list)
  | (Raise e, self', sent) => (Raise e, self', sent)
  | (Unmodelled, self', sent) => (Unmodelled, self', sent)
  end.

Notation "x <~ m ;; k" := (mbind m (fun x => k))
  (at level 61, m at next level, right associativity).

Definition get : M t := fun self => (Ok self, self, []).

Definition put (self : t) : M unit := fun _ => (Ok tt, self, []).

Definition lift {A} (r : result A) : M A := fun self => (r, self, []).

(** [self._session.request(...)] *)
Definition session_request (r : http_request) : M http_response := fun self =>
  match _session self with
  | Some session => (Ok (session r), self, [r])
  | None => (Raise AttributeError, self, [])
  end.

(** The dict a [header] argument refers to: one of the two the instance
    owns, or one of the caller's. *)
Inductive header_ref :=
| SelfHeaders
| SelfWriteHeaders
| Own (h : dict).

Definition deref (h : header_ref) (self : t) : dict :=
  match h with
  | SelfHeaders => _headers self
  | SelfWriteHeaders => _write_headers self
  | Own d => d
  end.

(** [header.update(other)], in place. *)
Definition header_update (h : header_ref) (other : dict) : M header_ref :=
  fun self =>
  match h with
  | SelfHeaders =>
      (Ok h, set_headers (dict_update (_headers self) other) self, [])
  | SelfWriteHeaders =>
      (Ok h, set_write_headers (dict_update (_write_headers self) other) self, [])
  | Own d => (Ok (Own (dict_update d other)), self, [])
  end.

Section WithHost.

Context {phost : PointHost} {host : ClientHost}.

Definition __init__ (host : string) (port : Z) (username password : string)
    (database : pyval) (session : option Session) (gzip : bool) : t :=
  {| _host := host;
     _port := port;
     _username := username;
     _password := password;
     _database := database;
     _baseurl := "http://" ++ host ++ ":" ++ str_int port;
     _gzip := gzip;
     _session := match session with
                 | None => Some requests_Session
                 | Some _ => None
                 end;
     _headers := [ ("Content-type", PStr "application/json");
                   ("Accept", PStr "text/plain") ];
     _write_headers := [ ("Content-type", PStr "application/octet-stream");
                         ("Accept", PStr "text/plain") ] |}.

Definition request (url method : string) (data : option (list byte))
    (params : option dict) (expected_response_code : Z)
    (header : option header_ref) : M http_response :=
  let header := match header with None => SelfHeaders | Some h => h end in
  let params := match params with None => [] | Some p => p end in
  self <~ get ;;
  let url := _baseurl self ++ "/" ++ url in
  hd <~ (if _gzip self then
           header <~ header_update header
                       [ ("Accept-Encoding", PStr "gzip");
                         ("Content-Encoding", PStr "gzip") ] ;;
           ret (header, option_map gzip_compress data)
         else ret (header, data)) ;;
  let '(header, data) := hd in
  self <~ get ;;
  response <~ session_request
    {| rq_method := method;
       rq_url := url;
       rq_auth := (_username self, _password self);
       rq_data := data;
       rq_headers := deref header self;
       rq_params := params |} ;;
  if status_code response =? expected_response_code then ret response
  else lift (Raise (Exception (status_code response) (content response))).

(** The [params] dict of [query] as it is when [request] is called. *)
Definition query_params (self : t) (query : string) (params : option dict)
    (chunked : bool) (chunk_size : Z) (epoch : pyval)
    (bind_params : option dict) : result dict :=
  let params := match params with None => [] | Some p => p end in
  let params :=
    if negb (is_None epoch) then dict_set "epoch" epoch params else params in
  let params :=
    if chunked then
      let params := dict_set "chunked" (PStr "true") params in
      if chunk_size >? 0 then dict_set "chunk_size" (PInt chunk_size) params
      else params
    else params in
  params <- match bind_params with
            | Some bind_params =>
                text <- match as_str (dict_get_default "params" (PStr "{}") params) with
                        | Some s => Ok s
                        | None => Raise TypeError
                        end ;;
                params_dict <- json_loads text ;;
                match params_dict with
                | PDict params_dict =>
                    let params_dict := dict_update params_dict bind_params in
                    text <- json_dumps (PDict params_dict) ;;
                    Ok (dict_set "params" (PStr text) params)
                | _ => Raise AttributeError
                end
            | None => Ok params
            end ;;
  let params := dict_set "q" (PStr query) params in
  if is_None (dict_get_default "db" PNone params)
  then Ok (dict_set "db" (_database self) params)
  else Ok params.

Definition query (query : string) (params : option dict) (chunked : bool)
    (chunk_size : Z) (epoch : pyval) (bind_params : option dict)
    (method : string) : M pyval :=
  self <~ get ;;
  params <~ lift (query_params self query params chunked chunk_size epoch
                               bind_params) ;;
  response <~ request "query" method None (Some params) 200 None ;;
  lift (json response).

Definition write (point : string) (precision : pyval) : M unit :=
  self <~ get ;;
  let params := [ ("db", _database self); ("precision", precision) ] in
  let data := [point] in
  let data := encode_utf8 (String.concat newline data ++ newline) in
  _ <~ request "write" "POST" (Some data) (Some params) 204
               (Some SelfWriteHeaders) ;;
  ret tt.

Definition switch_database (database : pyval) : M unit := fun self =>
  (Ok tt,
   mk (_host self) (_port self) (_username self) (_password self)
      database (_baseurl self) (_gzip self) (_session self)
      (_headers self) (_write_headers self),
   []).

Definition switch_user (username password : string) : M unit := fun self =>
  (Ok tt,
   mk (_host self) (_port self) username password
      (_database self) (_baseurl self) (_gzip self) (_session self)
      (_headers self) (_write_headers self),
   []).

(** A statement handed to [query] with the POST method. *)
Definition post_statement (statement : result string) : M unit :=
  q <~ lift statement ;;
  _ <~ query q None false 0 PNone None "POST" ;;
  ret tt.

(** [x.translate(escape_name)] on an argument of any class. *)
Definition translate_name (v : pyval) : result string :=
  match as_str v with
  | Some s => Ok (translate escape_name s)
  | None => Raise AttributeError
  end.

Definition create_database_statement (dbname : pyval) : result string :=
  dbname <- py_str dbname ;;
  Ok ("CREATE DATABASE " ++ dbname).

Definition create_database (dbname : pyval) : M unit :=
  post_statement (create_database_statement dbname).

Definition drop_database_statement (dbname : pyval) : result string :=
  dbname <- py_str dbname ;;
  Ok ("DROP DATABASE " ++ dbname).

Definition drop_database (dbname : pyval) : M unit :=
  post_statement (drop_database_statement dbname).

Definition show_database : M pyval :=
  query "SHOW DATABASES" None false 0 PNone None "GET".

Definition create_retention_policy_statement (self : t)
    (retention_policy_name replication duration database default
     shard_duration : pyval) : result string :=
  let database := if is_None database then _database self else database in
  name <- translate_name retention_policy_name ;;
  on <- translate_name database ;;
  duration <- py_str duration ;;
  replication <- py_str replication ;;
  let query :=
    "CREATE RETENTION POLICY " ++ dq ++ name ++ dq ++ " "
    ++ "ON " ++ dq ++ on ++ dq ++ " "
    ++ "DURATION " ++ duration ++ " "
    ++ "REPLICATION " ++ replication in
  let query :=
    if truthy shard_duration then query ++ " SHARD DURATION {shard_duration}"
    else query in
  let query := if truthy default then query ++ " DEFAULT" else query in
  Ok query.

Definition create_retention_policy
    (retention_policy_name replication duration database default
     shard_duration : pyval) : M unit :=
  self <~ get ;;
  post_statement
    (create_retention_policy_statement self retention_policy_name replication
       duration database default shard_duration).

Definition alter_retention_policy_statement (self : t)
    (retention_policy_name database duration replication default
     shard_duration : pyval) : result string :=
  let database := if is_None database then _database self else database in
  name <- translate_name retention_policy_name ;;
  on <- translate_name database ;;
  let query :=
    "ALTER RETENTION POLICY " ++ dq ++ name ++ dq ++ " "
    ++ "ON " ++ dq ++ on ++ dq in
  query <- (if truthy duration
            then text <- py_str duration ;; Ok (query ++ " DURATION " ++ text)
            else Ok query) ;;
  query <- (if truthy shard_duration
            then text <- py_str shard_duration ;;
                 Ok (query ++ " SHARD DURATION " ++ text)
            else Ok query) ;;
  query <- (if truthy replication
            then text <- py_str replication ;;
                 Ok (query ++ " REPLICATION " ++ text)
            else Ok query) ;;
  let query :=
    match default with
    | PBool true => query ++ " DEFAULT"
    | _ => query
    end in
  Ok query.

Definition alter_retention_policy
    (retention_policy_name database duration replication default
     shard_duration : pyval) : M unit :=
  self <~ get ;;
  post_statement
    (alter_retention_policy_statement self retention_policy_name database
       duration replication default shard_duration).

Definition drop_retention_policy_statement (self : t)
    (retention_policy_name database : pyval) : result string :=
  let database := if is_None database then _database self else database in
  name <- translate_name retention_policy_name ;;
  on <- translate_name database ;;
  Ok ("DROP RETENTION POLICY " ++ dq ++ name ++ dq ++ " "
      ++ "ON " ++ dq ++ on ++ dq).

Definition drop_retention_policy
    (retention_policy_name database : pyval) : M unit :=
  self <~ get ;;
  post_statement
    (drop_retention_policy_statement self retention_policy_name database).

Definition show_retention_policy_statement (self : t) (database : pyval)
  : result string :=
  let database := if is_None database then _database self else database in
  on <- translate_name database ;;
  Ok ("SHOW RETENTION POLICIES ON " ++ dq ++ on ++ dq).

Definition show_retention_policy (database : pyval) : M pyval :=
  self <~ get ;;
  q <~ lift (show_retention_policy_statement self database) ;;
  query q None false 0 PNone None "GET".

Definition create_user_statement (username password : pyval) (admin : pyval)
  : result string :=
  username <- py_str username ;;
  password <- py_str password ;;
  let query := "CREATE USER " ++ username ++ " WITH PASSWORD " ++ password in
  let query :=
    if truthy admin then query ++ " WITH ALL PRIVILEGES" else query in
  Ok query.

Definition create_user (username password admin : pyval) : M unit :=
  post_statement (create_user_statement username password admin).

Definition drop_user_statement (username : pyval) : result string :=
  username <- py_str username ;;
  Ok ("DROP USER " ++ username).

Definition drop_user (username : pyval) : M unit :=
  post_statement (drop_user_statement username).

End WithHost.

End OpenGeminiClient.

(** * Definitions for the statements *)

(** ** What the encoder drops, and the order of the tags *)

(** A field value the encoder drops: [None], or a float that is not
    finite. *)
Definition dropped_field (v : pyval) : bool :=
  match v with
  | PNone => true
  | PFloat x => negb (is_finite x)
  | _ => false
  end.

(** A tag the loop does not skip at once. *)
Definition has_value (kv : string * pyval) : bool := negb (is_None (snd kv)).

Definition key_le (x y : string * pyval) : Prop :=
  String.leb (fst x) (fst y) = true.

(** Ascending keys. *)
Inductive ordered : list (string * pyval) -> Prop :=
| ordered_nil : ordered []
| ordered_cons x l : Forall (key_le x) l -> ordered l -> ordered (x :: l).

(** ** Examples *)

(** 2016-06-13T17:43:50.100400, naive. *)
Definition example_datetime : datetime :=
  {| dt_ordinal := 736128;
     dt_second := 63830;
     dt_microsecond := 100400;
     dt_utcoffset := None |}.

(** A host for examples: the text of the one float the tests use, and a
    parser that knows two spellings of one instant. *)
#[local] Instance example_host : PointHost := {|
  float_str := fun x => if (x =? 1.1)%float then "1.1" else "nan";
  parse := fun s =>
    if (s =? "2016-06-13T17:43:50.100400")%string then Ok example_datetime
    else if (s =? "2016-06-13 17:43:50.100400")%string then Ok example_datetime
    else Raise (ParserError s)
|}.

(** The point of [test_point.py], with a measurement name to choose. *)
Definition example_point (measurement : string) : Point.t :=
  {| Point._tags := [ ("empty_tag", PStr "");
                      ("none_tag", PNone);
                      ("backslash_tag", PStr "C:\");
                      ("string_tag", PStr "hello") ];
     Point._fields := [ ("int_val", PInt 1);
                        ("float_val", PFloat 1.1);
                        ("none_field", PNone);
                        ("bool_val", PBool true);
                        ("string_val", PStr "hello") ];
     Point._measurement := PStr measurement;
     Point._time := PNone;
     Point._write_precision := PStr "ns";
     Point._field_types := [] |}.

(** Microseconds from the epoch to [d], a naive [d] read as UTC. *)
Definition micros_since_epoch (d : datetime) : Z :=
  ((dt_ordinal d - 719163) * 86400 + dt_second d
   - match dt_utcoffset d with Some offset => offset | None => 0 end)
  * 1000000 + dt_microsecond d.

(** A point whose fields are all dropped, with an unusable time. *)
Definition dropped_example : Point.t :=
  {| Point._tags := [ ("host", PStr "a"); ("rack", PNone) ];
     Point._fields := [ ("load", PFloat infinity); ("note", PNone) ];
     Point._measurement := PStr "cpu";
     Point._time := PFloat 1.5;
     Point._write_precision := PStr "ns";
     Point._field_types := [] |}.

(** A session that answers 204 to a request with a body and 200 to any
    other, and a host with a small JSON codec. *)
Definition example_session : Session := fun r =>
  {| status_code := match rq_data r with Some _ => 204 | None => 200 end;
     content := [];
     json := Ok (PDict []) |}.

Definition example_dumps_item (kv : string * pyval) : string :=
  dq ++ fst kv ++ dq ++ ": "
  ++ match snd kv with
     | PInt z => str_int z
     | PStr s => dq ++ s ++ dq
     | _ => "null"
     end.

#[local] Instance example_client_host : ClientHost := {|
  json_loads := fun s =>
    if (s =? "{}")%string then Ok (PDict [])
    else if (s =? "{" ++ dq ++ "a" ++ dq ++ ": 1, "
                      ++ dq ++ "b" ++ dq ++ ": 2}")%string
    then Ok (PDict [ ("a", PInt 1); ("b", PInt 2) ])
    else Raise (ValueError (PStr s));
  json_dumps := fun v =>
    match v with
    | PDict d => Ok ("{" ++ String.concat ", " (map example_dumps_item d) ++ "}")
    | _ => Raise TypeError
    end;
  gzip_compress := fun data => (x1f :: x8b :: data)%list;
  requests_Session := example_session
|}.

Definition example_client : OpenGeminiClient.t :=
  OpenGeminiClient.__init__ "localhost" 8086 "username" "password"
    (PStr "database") None false.

Definition example_gzip_client : OpenGeminiClient.t :=
  OpenGeminiClient.__init__ "localhost" 8086 "" "" (PStr "db") None true.

Definition weather_line : string :=
  "weather,location=us-midwest temperature=82i 1465839830100400200".

(** ** The line, token by token *)

(** Whether a character occurs in a string. *)
Fixpoint occurs (c : ascii) (s : string) : bool :=
  match s with
  | EmptyString => false
  | String c' r => Ascii.eqb c c' || occurs c r
  end.

(** The tokens a list of entries gives, entry by entry. *)
Fixpoint tokens {A} (f : A -> option string) (l : list A) : list string :=
  match l with
  | [] => []
  | x :: l' =>
      match f x with
      | Some token => token :: tokens f l'
      | None => tokens f l'
      end
  end.

(** Each token behind a comma. *)
Fixpoint glue (toks : list string) : string :=
  match toks with
  | [] => ""
  | token :: toks' => "," ++ token ++ glue toks'
  end.

(** [key=value] of a tag, escaped; none for a null tag and for an empty
    key or value. *)
Definition tag_token (kv : string * pyval) : option string :=
  match snd kv with
  | PStr v =>
      if (fst kv =? "")%string || (v =? "")%string then None
      else Some (translate escape_name (fst kv) ++ "="
                 ++ translate escape_name v)
  | _ => None
  end.

(** A tag the loop passes over in silence. *)
Definition silent_tag (kv : string * pyval) : bool :=
  match snd kv with
  | PNone => true
  | PStr v => (fst kv =? "")%string || (v =? "")%string
  | _ => false
  end.

(** The timestamp token of a time that is null or an integer. *)
Definition time_token (time : pyval) : string :=
  match time with
  | PInt z => " " ++ str_int z
  | PBool b => " " ++ str_bool b
  | _ => ""
  end.

Section Tokens.

Context {host : PointHost}.

(** [key=value] of a field by the class of the value; none for null, for
    a float that is not finite and for any other class. *)
Definition field_token (kv : string * pyval) : option string :=
  let field := translate escape_name (fst kv) in
  match snd kv with
  | PStr s =>
      Some (field ++ "=" ++ dq ++ translate escape_field_value s ++ dq)
  | PBool b => Some (field ++ "=" ++ (if b then "true" else "false"))
  | PFloat x =>
      if is_finite x then Some (field ++ "=" ++ float_str x) else None
  | PInt z => Some (field ++ "=" ++ str_int z ++ "i")
  | _ => None
  end.

End Tokens.

(** A tag value that is neither null nor a string. *)
Definition bad_tag (kv : string * pyval) : Prop :=
  is_None (snd kv) = false /\ isinstance_str (snd kv) = false.

(** Two tags in either order, and a tag of the wrong class. *)
Definition two_tags_point (first second : string * pyval) : Point.t :=
  {| Point._tags := [ first; second ];
     Point._fields := [ ("up", PBool true) ];
     Point._measurement := PStr "cpu";
     Point._time := PNone;
     Point._write_precision := PStr "ns";
     Point._field_types := [] |}.

(** ** What a method call leaves behind *)

Definition outcome_of {A}
    (x : result A * OpenGeminiClient.t * list http_request) : result A :=
  fst (fst x).

Definition state_after {A}
    (x : result A * OpenGeminiClient.t * list http_request)
  : OpenGeminiClient.t :=
  snd (fst x).

Definition sent_by {A}
    (x : result A * OpenGeminiClient.t * list http_request)
  : list http_request :=
  snd x.

(** Two instances with the same address, credentials, database, gzip flag
    and session. *)
Definition same_connection (a b : OpenGeminiClient.t) : Prop :=
  OpenGeminiClient._host a = OpenGeminiClient._host b
  /\ OpenGeminiClient._port a = OpenGeminiClient._port b
  /\ OpenGeminiClient._username a = OpenGeminiClient._username b
  /\ OpenGeminiClient._password a = OpenGeminiClient._password b
  /\ OpenGeminiClient._database a = OpenGeminiClient._database b
  /\ OpenGeminiClient._baseurl a = OpenGeminiClient._baseurl b
  /\ OpenGeminiClient._gzip a = OpenGeminiClient._gzip b
  /\ OpenGeminiClient._session a = OpenGeminiClient._session b.

(** The headers gzip adds. *)
Definition gzip_headers : dict :=
  [ ("Accept-Encoding", PStr "gzip"); ("Content-Encoding", PStr "gzip") ].

(** The client of [OpenGeminiClient()]: no database. *)
Definition default_client : OpenGeminiClient.t :=
  OpenGeminiClient.__init__ "localhost" 8086 "" "" PNone None false.

(** Reduction steps of the two loops. *)
Ltac loop_simpl :=
  cbn [Point.fields_loop Point.tags_loop is_None as_str as_float
       isinstance_bool isinstance_int py_str bind negb].

(** * Properties *)

(** ** Strings *)

Lemma append_nil_r (s : string) : s ++ "" = s.
Proof. induction s as [|c s IH]; simpl; [reflexivity | now rewrite IH]. Qed.

Lemma append_assoc (a b c : string) : (a ++ b) ++ c = a ++ (b ++ c).
Proof. induction a as [|x a IH]; simpl; [reflexivity | now rewrite IH]. Qed.

Lemma eqb_empty_comma (a b c : string) :
  (a ++ ("," ++ b) ++ c =? "")%string = false.
Proof. destruct a; reflexivity. Qed.

(** ** The field loop *)

Section EncoderFacts.

Context {host : PointHost}.

Lemma fields_loop_acc items : forall fields,
  Point.fields_loop items fields
  = (text <- Point.fields_loop items "" ;; Ok (fields ++ text)).
Proof.
  induction items as [|[key value] rest IH]; intros fields.
  - cbn. now rewrite append_nil_r.
  - destruct value as [|s|b|z|x|l|l|d|d]; loop_simpl;
      try destruct (is_finite x); loop_simpl;
      try apply IH;
      rewrite IH; symmetry; rewrite IH; symmetry;
      destruct (Point.fields_loop rest ""); cbn [bind]; try reflexivity;
      now rewrite !append_assoc.
Qed.

Lemma fields_loop_total items : forall fields,
  exists text, Point.fields_loop items fields = Ok text.
Proof.
  induction items as [|[key value] rest IH]; intros fields.
  - now exists fields.
  - destruct value as [|s|b|z|x|l|l|d|d]; loop_simpl;
      try destruct (is_finite x); loop_simpl; apply IH.
Qed.

Lemma fields_loop_app pre post : forall fields,
  Point.fields_loop (pre ++ post)%list fields
  = (text <- Point.fields_loop pre fields ;; Point.fields_loop post text).
Proof.
  induction pre as [|[key value] rest IH]; intros fields.
  - reflexivity.
  - rewrite <- app_comm_cons.
    destruct value as [|s|b|z|x|l|l|d|d]; loop_simpl;
      try destruct (is_finite x); loop_simpl; apply IH.
Qed.

Lemma fields_loop_dropped key value rest fields :
  dropped_field value = true ->
  Point.fields_loop ((key, value) :: rest) fields
  = Point.fields_loop rest fields.
Proof.
  destruct value as [|s|b|z|x|l|l|d|d]; try discriminate; intros H.
  - reflexivity.
  - loop_simpl. cbn in H. now rewrite H.
Qed.

Lemma fields_loop_all_dropped items : forall fields,
  Forall (fun kv => dropped_field (snd kv) = true) items ->
  Point.fields_loop items fields = Ok fields.
Proof.
  induction items as [|[key value] rest IH]; intros fields H.
  - reflexivity.
  - inversion H as [|? ? Hv Hrest]; subst.
    rewrite fields_loop_dropped by exact Hv. now apply IH.
Qed.

End EncoderFacts.

(** ** The order of the tags *)

Lemma ascii_compare_N (a b : ascii) :
  Ascii.compare a b = (N_of_ascii a ?= N_of_ascii b)%N.
Proof. reflexivity. Qed.

Lemma string_compare_trans_le : forall a b c : string,
  String.compare a b <> Gt -> String.compare b c <> Gt ->
  String.compare a c <> Gt.
Proof.
  induction a as [|x a IH]; intros [|y b] [|z c]; cbn; try congruence.
  rewrite !ascii_compare_N.
  destruct (N.compare_spec (N_of_ascii x) (N_of_ascii y));
    destruct (N.compare_spec (N_of_ascii y) (N_of_ascii z));
    destruct (N.compare_spec (N_of_ascii x) (N_of_ascii z));
    try congruence; try lia; intros; eauto.
Qed.

Lemma string_leb_trans (a b c : string) :
  String.leb a b = true -> String.leb b c = true -> String.leb a c = true.
Proof.
  unfold String.leb. intros Hab Hbc.
  pose proof (string_compare_trans_le a b c) as H.
  destruct (String.compare a b), (String.compare b c), (String.compare a c);
    try reflexivity; try discriminate; exfalso; apply H; congruence.
Qed.

Lemma insert_item_Forall (P : string * pyval -> Prop) x l :
  P x -> Forall P l -> Forall P (insert_item x l).
Proof.
  intros Hx. induction l as [|y l IH]; intros Hl; cbn.
  - auto.
  - destruct (String.leb (fst x) (fst y)); [auto|].
    inversion Hl; subst. auto.
Qed.

Lemma sorted_Forall (P : string * pyval -> Prop) l :
  Forall P l -> Forall P (sorted l).
Proof.
  induction 1; cbn; [constructor | now apply insert_item_Forall].
Qed.

Lemma insert_item_ordered x l : ordered l -> ordered (insert_item x l).
Proof.
  induction 1 as [|y l Hy Hl IH]; cbn.
  - repeat constructor.
  - destruct (String.leb (fst x) (fst y)) eqn:E.
    + constructor; [|now constructor].
      constructor; [exact E|].
      eapply Forall_impl; [|exact Hy].
      intros z Hz. unfold key_le in *. eapply string_leb_trans; eauto.
    + constructor; [|exact IH].
      apply insert_item_Forall; [|exact Hy].
      unfold key_le. destruct (String.leb_total (fst x) (fst y)); congruence.
Qed.

Lemma sorted_ordered l : ordered (sorted l).
Proof.
  induction l; cbn; [constructor | now apply insert_item_ordered].
Qed.

Lemma insert_item_least x l : Forall (key_le x) l -> insert_item x l = x :: l.
Proof.
  destruct l as [|y l]; [reflexivity|].
  intros H. inversion H as [|? ? Hy _]; subst. cbn.
  unfold key_le in Hy. now rewrite Hy.
Qed.

Lemma Forall_filter {A} (P : A -> Prop) f (l : list A) :
  Forall P l -> Forall P (filter f l).
Proof.
  induction 1; cbn; [constructor|]. destruct (f x); auto.
Qed.

Lemma filter_insert_item f x l :
  ordered l ->
  filter f (insert_item x l)
  = if f x then insert_item x (filter f l) else filter f l.
Proof.
  induction 1 as [|y l Hy Hl IH].
  - cbn. now destruct (f x).
  - cbn [insert_item]. destruct (String.leb (fst x) (fst y)) eqn:E.
    + cbn [filter]. destruct (f x) eqn:Fx; [|reflexivity].
      symmetry. apply (insert_item_least x (filter f (y :: l))).
      apply Forall_filter. constructor; [exact E|].
      eapply Forall_impl; [|exact Hy].
      intros z Hz. unfold key_le in *. eapply string_leb_trans; eauto.
    + cbn [filter]. rewrite IH.
      destruct (f y) eqn:Fy, (f x) eqn:Fx; cbn [insert_item];
        rewrite ?E; reflexivity.
Qed.

Lemma filter_sorted f l : filter f (sorted l) = sorted (filter f l).
Proof.
  induction l as [|x l IH]; [reflexivity|].
  cbn [sorted filter].
  rewrite filter_insert_item by apply sorted_ordered.
  rewrite IH. now destruct (f x).
Qed.

Lemma tags_loop_has_value items : forall tags,
  Point.tags_loop items tags = Point.tags_loop (filter has_value items) tags.
Proof.
  induction items as [|[key value] rest IH]; intros tags; [reflexivity|].
  destruct value as [|s|b|z|x|l|l|d|d]; cbn [filter has_value snd is_None negb];
    try reflexivity.
  - cbn [Point.tags_loop is_None]. apply IH.
  - cbn [Point.tags_loop is_None as_str].
    destruct (negb _ && negb _); apply IH.
Qed.

Lemma tags_loop_total items : forall tags,
  Forall (fun kv => is_None (snd kv) || isinstance_str (snd kv) = true) items ->
  exists text, Point.tags_loop items tags = Ok text.
Proof.
  induction items as [|[key value] rest IH]; intros tags H.
  - now exists tags.
  - inversion H as [|? ? Hv Hrest]; subst.
    destruct value as [|s|b|z|x|l|l|d|d]; try discriminate;
      cbn [Point.tags_loop is_None as_str].
    + now apply IH.
    + destruct (negb _ && negb _); now apply IH.
Qed.

(** ** The encoder *)

Lemma append_inv_head (a x y : string) : a ++ x = a ++ y -> x = y.
Proof. induction a; cbn; intros H; [exact H | injection H; auto]. Qed.

Section EncoderClaims.

Context {host : PointHost}.

(** A calendar timestamp becomes the nanoseconds of its distance to the
    epoch, put together from the days, seconds and microseconds of that
    distance. *)
Lemma convert_timestamp_datetime (d : datetime) :
  _convert_timestamp (PDatetime d)
  = Ok (PInt (days (timedelta_of_micros (micros_since_epoch d))
              * 86400 * 10 ^ 9
              + seconds (timedelta_of_micros (micros_since_epoch d)) * 10 ^ 9
              + microseconds (timedelta_of_micros (micros_since_epoch d))
                * 10 ^ 3)).
Proof.
  unfold _convert_timestamp, UTC_localize.
  cbn [is_None isinstance_int as_str as_datetime bind].
  assert (Hsub : forall d',
             dt_ordinal d' = dt_ordinal d ->
             dt_second d' = dt_second d ->
             dt_microsecond d' = dt_microsecond d ->
             dt_utcoffset d'
             = Some match dt_utcoffset d with
                    | Some offset => offset
                    | None => 0
                    end ->
             datetime_sub d' EPOCH
             = Ok (timedelta_of_micros (micros_since_epoch d))).
  { intros d' Ho Hs Hu Hz. unfold datetime_sub.
    rewrite Hz, Ho, Hs, Hu.
    cbn [EPOCH dt_utcoffset dt_ordinal dt_second dt_microsecond].
    f_equal. f_equal. unfold micros_since_epoch.
    destruct (dt_utcoffset d); lia. }
  unfold _to_nanos.
  destruct d as [o s u [offset|]]; cbn [dt_utcoffset bind];
    rewrite Hsub by reflexivity; reflexivity.
Qed.

(** C1.  The point of the repository's test, with any measurement name:
    the tags come out in ascending key order without the empty and the
    null one, the fields in insertion order without the null one. *)
Theorem to_line_protocol_example (measurement : string) :
  float_str 1.1 = "1.1" ->
  Point.tags_loop (sorted (Point._tags (example_point measurement))) ""
  = Ok ",backslash_tag=C:\,string_tag=hello"
  /\ Point.fields_loop (Point._fields (example_point measurement)) ""
     = Ok (",int_val=1i,float_val=1.1,bool_val=true,string_val="
           ++ dq ++ "hello" ++ dq)
  /\ Point.to_line_protocol (example_point measurement)
     = Ok (translate escape_measurement measurement
           ++ ",backslash_tag=C:\,string_tag=hello"
           ++ " "
           ++ "int_val=1i,float_val=1.1,bool_val=true,string_val="
           ++ dq ++ "hello" ++ dq).
Proof.
  intros Hfloat.
  assert (Htags : Point.tags_loop
                    (sorted (Point._tags (example_point measurement))) ""
                  = Ok ",backslash_tag=C:\,string_tag=hello")
    by reflexivity.
  assert (Hfields : Point.fields_loop
                      (Point._fields (example_point measurement)) ""
                    = Ok (",int_val=1i,float_val=1.1,bool_val=true,string_val="
                          ++ dq ++ "hello" ++ dq)).
  { cbn. rewrite Hfloat. reflexivity. }
  repeat split; try assumption.
  unfold Point.to_line_protocol. rewrite Htags, Hfields. reflexivity.
Qed.

(** C2.  A boolean field adds [,key=true] or [,key=false] to the field
    text, although a boolean passes the integer test too; the text it adds
    is neither what the integer branch nor what a quoted string would
    give, and the point is rendered with it. *)
Theorem bool_field_renders_as_bool (self : Point.t) pre key b post :
  Point._fields self = (pre ++ (key, PBool b) :: post)%list ->
  isinstance_int (PBool b) = true
  /\ exists before rest,
       Point.fields_loop pre "" = Ok before
       /\ Point.fields_loop post "" = Ok rest
       /\ Point.fields_loop (Point._fields self) ""
          = Ok (before
                ++ ("," ++ translate escape_name key ++ "="
                        ++ (if b then "true" else "false"))
                ++ rest)
       /\ Point.to_line_protocol self
          = (measurement <- Point.measurement_text self ;;
             tags <- Point.tags_loop (sorted (Point._tags self)) "" ;;
             time <- _convert_timestamp (Point._time self) ;;
             time_format <- Point.time_format time ;;
             Ok (measurement ++ tags ++ " "
                 ++ drop_first
                      (before
                       ++ ("," ++ translate escape_name key ++ "="
                               ++ (if b then "true" else "false"))
                       ++ rest)
                 ++ time_format))
       /\ "," ++ translate escape_name key ++ "="
              ++ (if b then "true" else "false")
          <> "," ++ translate escape_name key ++ "=" ++ str_bool b ++ "i"
       /\ "," ++ translate escape_name key ++ "="
              ++ (if b then "true" else "false")
          <> "," ++ translate escape_name key ++ "="
                 ++ str_int (Z.b2z b) ++ "i".
Proof.
  intros Hfields. split; [reflexivity|].
  destruct (fields_loop_total pre "") as [before Hpre].
  destruct (fields_loop_total post "") as [rest Hpost].
  exists before, rest.
  assert (Hloop : Point.fields_loop (Point._fields self) ""
                  = Ok (before
                        ++ ("," ++ translate escape_name key ++ "="
                                ++ (if b then "true" else "false"))
                        ++ rest)).
  { rewrite Hfields, fields_loop_app, Hpre. cbn [bind].
    cbn [Point.fields_loop is_None as_str isinstance_bool py_str bind].
    rewrite fields_loop_acc, Hpost. cbn [bind].
    destruct b; cbn [str_bool lower]; rewrite !append_assoc; reflexivity. }
  repeat split; try assumption.
  - unfold Point.to_line_protocol. rewrite Hloop.
    destruct (Point.measurement_text self); cbn [bind]; try reflexivity.
    destruct (Point.tags_loop _ _); cbn [bind]; try reflexivity.
    rewrite eqb_empty_comma. reflexivity.
  - intros H. do 2 apply append_inv_head in H.
    destruct b; discriminate.
  - intros H. do 2 apply append_inv_head in H.
    destruct b; discriminate.
Qed.

(** C3.  A field that is null or a float that is not finite, and a tag
    that is null, leave no trace: the point renders as it does without
    them.  When every field is dropped the point renders to the empty
    string, whatever its measurement name, its tags and its time. *)
Theorem dropped_entries_are_absent :
  (forall self pre key value post,
      dropped_field value = true ->
      Point._fields self = (pre ++ (key, value) :: post)%list ->
      Point.to_line_protocol self
      = Point.to_line_protocol (Point.set_fields (pre ++ post)%list self))
  /\ (forall self pre key post,
         Point._tags self = (pre ++ (key, PNone) :: post)%list ->
         Point.to_line_protocol self
         = Point.to_line_protocol (Point.set_tags (pre ++ post)%list self))
  /\ (forall self,
         isinstance_str (Point._measurement self) = true ->
         Forall (fun kv => is_None (snd kv) || isinstance_str (snd kv) = true)
                (Point._tags self) ->
         Forall (fun kv => dropped_field (snd kv) = true)
                (Point._fields self) ->
         Point.to_line_protocol self = Ok "").
Proof.
  split; [|split].
  - intros self pre key value post Hv Hf.
    unfold Point.to_line_protocol.
    replace (Point.fields_loop
               (Point._fields (Point.set_fields (pre ++ post)%list self)) "")
      with (Point.fields_loop (Point._fields self) "").
    + reflexivity.
    + rewrite Hf. cbn [Point.set_fields Point._fields].
      rewrite !fields_loop_app.
      destruct (Point.fields_loop pre ""); cbn [bind]; try reflexivity.
      now apply fields_loop_dropped.
  - intros self pre key post Ht.
    unfold Point.to_line_protocol.
    replace (Point.tags_loop
               (sorted (Point._tags (Point.set_tags (pre ++ post)%list self))) "")
      with (Point.tags_loop (sorted (Point._tags self)) "").
    + reflexivity.
    + rewrite Ht. cbn [Point.set_tags Point._tags].
      rewrite (tags_loop_has_value (sorted (pre ++ (key, PNone) :: post))).
      rewrite (tags_loop_has_value (sorted (pre ++ post))).
      rewrite !filter_sorted, !filter_app. reflexivity.
  - intros self Hm Ht Hf.
    unfold Point.to_line_protocol, Point.measurement_text.
    destruct (Point._measurement self); try discriminate. cbn [as_str bind].
    destruct (tags_loop_total (sorted (Point._tags self)) "") as [tags Htags].
    { now apply sorted_Forall. }
    rewrite Htags. cbn [bind].
    rewrite fields_loop_all_dropped by exact Hf. reflexivity.
Qed.

(** C4.  The normaliser answers [None] with the empty string, hands an
    integer back as it is, turns a calendar timestamp (a naive one read as
    UTC) into days*86400*10^9 + seconds*10^9 + microseconds*10^3 of its
    distance to the epoch, which is that distance in nanoseconds, treats a
    string as the timestamp it parses to, and raises [ValueError] on a
    value of any other class. *)
Theorem convert_timestamp_cases :
  _convert_timestamp PNone = Ok (PStr "")
  /\ (forall v, isinstance_int v = true -> _convert_timestamp v = Ok v)
  /\ (forall d,
         let delta := timedelta_of_micros (micros_since_epoch d) in
         _convert_timestamp (PDatetime d)
         = Ok (PInt (days delta * 86400 * 10 ^ 9
                     + seconds delta * 10 ^ 9
                     + microseconds delta * 10 ^ 3))
         /\ days delta * 86400 * 10 ^ 9 + seconds delta * 10 ^ 9
            + microseconds delta * 10 ^ 3
            = 1000 * micros_since_epoch d)
  /\ (forall s d,
         parse s = Ok d ->
         _convert_timestamp (PStr s) = _convert_timestamp (PDatetime d))
  /\ (forall v,
         is_None v = false -> isinstance_int v = false ->
         isinstance_str v = false -> as_datetime v = None ->
         _convert_timestamp v = Raise (ValueError v)).
Proof.
  split; [reflexivity|]. split; [|split; [|split]].
  - intros v Hv. destruct v; try discriminate; reflexivity.
  - intros d delta. split.
    + apply convert_timestamp_datetime.
    + subst delta. unfold timedelta_of_micros.
      cbn [days seconds microseconds].
      set (us := micros_since_epoch d).
      pose proof (Z.div_mod us 86400000000 ltac:(lia)) as H1.
      pose proof (Z.div_mod (us mod 86400000000) 1000000 ltac:(lia)) as H2.
      lia.
  - intros s d Hp. unfold _convert_timestamp.
    cbn [is_None isinstance_int as_str bind]. rewrite Hp. reflexivity.
  - intros v Hn Hi Hs Hd.
    destruct v; try discriminate; reflexivity.
Qed.

(** C10.  With a string key, [tag] ignores a value that is not a string
    and [field] ignores a value that is none of str, float, bool and int:
    nothing is stored, nothing is raised, the point comes back as it
    was. *)
Theorem tag_field_ignore_unsupported (self : Point.t) (key : string)
    (value : pyval) :
  (isinstance_str value = false ->
   Point.tag (PStr key) value self = Ok self)
  /\ (isinstance_str value = false -> isinstance_float value = false ->
      isinstance_bool value = false -> isinstance_int value = false ->
      Point.field (PStr key) value self = Ok self).
Proof.
  split.
  - intros Hs. unfold Point.tag. cbn [as_str as_seq]. now rewrite Hs.
  - intros Hs Hf Hb Hi. unfold Point.field. cbn [as_str as_seq].
    now rewrite Hs, Hf, Hb, Hi.
Qed.

(** What the normaliser returns is the empty string or an integer. *)
Lemma convert_timestamp_returns (timestamp time : pyval) :
  _convert_timestamp timestamp = Ok time ->
  time = PStr "" \/ isinstance_int time = true.
Proof.
  destruct timestamp as [|s|b|z|x|l|l|d|d];
    try (rewrite convert_timestamp_datetime);
    try (intros [= <-]; auto); try discriminate.
  unfold _convert_timestamp. cbn [is_None isinstance_int as_str bind].
  destruct (parse s) as [d| |]; cbn [bind]; try discriminate.
  change (_convert_timestamp (PDatetime d) = Ok time -> time = PStr "" \/ isinstance_int time = true).
  rewrite convert_timestamp_datetime. intros [= <-]. auto.
Qed.

(** The encoder stays inside the model: with a parser that does, it
    returns a string or raises. *)
Lemma to_line_protocol_modelled (self : Point.t) :
  (forall s, parse s <> Unmodelled) ->
  Point.to_line_protocol self <> Unmodelled.
Proof.
  intros Hparse. unfold Point.to_line_protocol, Point.measurement_text.
  destruct (as_str (Point._measurement self)); cbn [bind]; [|discriminate].
  assert (Htags : forall items tags, Point.tags_loop items tags <> Unmodelled).
  { induction items as [|[key value] rest IH]; intros tags; [discriminate|].
    destruct value; cbn [Point.tags_loop is_None as_str];
      try discriminate; try apply IH.
    destruct (negb _ && negb _); apply IH. }
  destruct (Point.tags_loop _ _) as [tags| |] eqn:Et; cbn [bind];
    [|discriminate|now apply Htags in Et].
  destruct (fields_loop_total (Point._fields self) "") as [fields Hf].
  rewrite Hf. cbn [bind].
  destruct (fields =? "")%string; [discriminate|].
  destruct (_convert_timestamp (Point._time self)) as [time| |] eqn:Ec;
    cbn [bind]; [|discriminate|].
  - destruct (convert_timestamp_returns _ _ Ec) as [-> | Hint].
    + discriminate.
    + destruct time; try discriminate Hint; discriminate.
  - exfalso. revert Ec.
    destruct (Point._time self) as [|text|b|z|x|l|l|d|d];
      try (rewrite convert_timestamp_datetime); try discriminate.
    unfold _convert_timestamp. cbn [is_None isinstance_int as_str bind].
    specialize (Hparse text).
    destruct (parse text) as [d| |]; cbn [bind]; [|discriminate|congruence].
    change (_convert_timestamp (PDatetime d) = Unmodelled -> False).
    rewrite convert_timestamp_datetime. discriminate.
Qed.

End EncoderClaims.

(** *** The encoder on concrete points *)

(** The point of [test_client.py], built with the chained calls. *)
Example weather_point_line :
  (p <- Point.tag (PStr "location") (PStr "us-midwest")
          (Point.__init__ (PStr "weather")) ;;
   p <- Point.field (PStr "temperature") (PInt 82) p ;;
   Point.to_line_protocol (Point.time (PInt 1465839830100400200) (PStr "ns") p))
  = Ok weather_line.
Proof. reflexivity. Qed.

Lemma to_line_protocol_example_witness :
  @float_str example_host 1.1 = "1.1"
  /\ Point.to_line_protocol (example_point "test")
     = Ok ("test,backslash_tag=C:\,string_tag=hello "
           ++ "int_val=1i,float_val=1.1,bool_val=true,string_val="
           ++ dq ++ "hello" ++ dq).
Proof.
  split; [reflexivity|].
  exact (proj2 (proj2 (to_line_protocol_example "test" eq_refl))).
Defined.

Lemma bool_field_renders_as_bool_witness :
  Point._fields (example_point "test")
  = ([ ("int_val", PInt 1); ("float_val", PFloat 1.1); ("none_field", PNone) ]
     ++ ("bool_val", PBool true) :: [ ("string_val", PStr "hello") ])%list
  /\ Point.fields_loop (Point._fields (example_point "test")) ""
     = Ok (",int_val=1i,float_val=1.1" ++ ",bool_val=true"
           ++ ",string_val=" ++ dq ++ "hello" ++ dq).
Proof.
  split; [reflexivity|].
  destruct (bool_field_renders_as_bool (example_point "test")
              [ ("int_val", PInt 1); ("float_val", PFloat 1.1);
                ("none_field", PNone) ]
              "bool_val" true [ ("string_val", PStr "hello") ] eq_refl)
    as (_ & before & rest & Hbefore & Hrest & Hloop & _).
  injection Hbefore as <-. injection Hrest as <-. exact Hloop.
Defined.

Lemma dropped_entries_are_absent_witness :
  Point.to_line_protocol dropped_example = Ok ""
  /\ Point.to_line_protocol
       (Point.set_fields [ ("up", PBool true); ("load", PFloat nan) ]
                         dropped_example)
     = Point.to_line_protocol
         (Point.set_fields [ ("up", PBool true) ] dropped_example)
  /\ Point.to_line_protocol
       (Point.set_fields [ ("up", PBool true) ] dropped_example)
     = Point.to_line_protocol
         (Point.set_tags [ ("host", PStr "a") ]
            (Point.set_fields [ ("up", PBool true) ] dropped_example)).
Proof.
  destruct (@dropped_entries_are_absent example_host) as (Hfield & Htag & Hall).
  split; [|split].
  - apply Hall.
    + reflexivity.
    + repeat constructor.
    + repeat constructor.
  - exact (Hfield (Point.set_fields [ ("up", PBool true); ("load", PFloat nan) ]
                                    dropped_example)
                  [ ("up", PBool true) ] "load" (PFloat nan) []
                  eq_refl eq_refl).
  - exact (Htag (Point.set_fields [ ("up", PBool true) ] dropped_example)
                [ ("host", PStr "a") ] "rack" [] eq_refl).
Defined.

Lemma convert_timestamp_cases_witness :
  _convert_timestamp (PInt 1465839830100400200)
  = Ok (PInt 1465839830100400200)
  /\ _convert_timestamp (PBool true) = Ok (PBool true)
  /\ _convert_timestamp (PStr "2016-06-13T17:43:50.100400")
     = Ok (PInt 1465839830100400000)
  /\ _convert_timestamp (PFloat 1.5) = Raise (ValueError (PFloat 1.5)).
Proof.
  destruct (@convert_timestamp_cases example_host)
    as (_ & Hint & Hdate & Hstr & Hother).
  split; [|split; [|split]].
  - apply Hint. reflexivity.
  - apply Hint. reflexivity.
  - rewrite (Hstr "2016-06-13T17:43:50.100400" example_datetime eq_refl).
    exact (proj1 (Hdate example_datetime)).
  - apply Hother; reflexivity.
Defined.

Lemma tag_field_ignore_unsupported_witness :
  Point.tag (PStr "location") (PInt 7) (example_point "test")
  = Ok (example_point "test")
  /\ Point.field (PStr "reading") PNone (example_point "test")
     = Ok (example_point "test")
  /\ Point.field (PStr "reading") (PList [PInt 1]) (example_point "test")
     = Ok (example_point "test").
Proof.
  split; [|split].
  - apply (proj1 (tag_field_ignore_unsupported
                    (example_point "test") "location" (PInt 7))).
    reflexivity.
  - apply (proj2 (tag_field_ignore_unsupported
                    (example_point "test") "reading" PNone));
      reflexivity.
  - apply (proj2 (tag_field_ignore_unsupported
                    (example_point "test") "reading" (PList [PInt 1])));
      reflexivity.
Defined.

(** ** The client *)

Lemma dict_get_set_same k v d : dict_get k (dict_set k v d) = Some v.
Proof.
  induction d as [|[k' v'] d IH]; cbn.
  - now rewrite String.eqb_refl.
  - destruct (k =? k')%string eqn:E; cbn.
    + now rewrite String.eqb_refl.
    + now rewrite E.
Qed.

Lemma dict_get_set_other k k' v d :
  k <> k' -> dict_get k (dict_set k' v d) = dict_get k d.
Proof.
  intros Hne. induction d as [|[k'' v''] d IH]; cbn.
  - apply String.eqb_neq in Hne. now rewrite Hne.
  - destruct (k' =? k'')%string eqn:E; cbn.
    + apply String.eqb_eq in E. subst k''.
      apply String.eqb_neq in Hne. now rewrite Hne.
    + now rewrite IH.
Qed.

Lemma dict_get_not_in k (d : dict) :
  ~ In k (map fst d) -> dict_get k d = None.
Proof.
  induction d as [|[k' v'] d IH]; cbn; intros H; [reflexivity|].
  destruct (k =? k')%string eqn:E.
  - apply String.eqb_eq in E. subst k'. tauto.
  - apply IH. tauto.
Qed.

(** [d.update(other)] gives every key of [other] the value it has there
    and leaves the other keys of [d] alone. *)
Lemma dict_get_update k (other : dict) : forall d,
  NoDup (map fst other) ->
  dict_get k (dict_update d other)
  = match dict_get k other with
    | Some v => Some v
    | None => dict_get k d
    end.
Proof.
  unfold dict_update.
  induction other as [|[k' v'] other IH]; intros d Hnd; cbn [fold_left].
  - reflexivity.
  - inversion Hnd as [|? ? Hnotin Hnd']; subst.
    rewrite IH by exact Hnd'. cbn [fst snd dict_get].
    destruct (k =? k')%string eqn:E.
    + apply String.eqb_eq in E. subst k'.
      rewrite dict_get_not_in by exact Hnotin.
      apply dict_get_set_same.
    + apply String.eqb_neq in E.
      now rewrite dict_get_set_other by exact E.
Qed.

Section ClientFacts.

Context {phost : PointHost} {host : ClientHost}.

Import OpenGeminiClient.

(** [request] with a session at hand: one request goes out, built from
    the arguments and the instance, and the status of the answer decides
    the outcome. *)
Lemma request_sends (self : t) (session : Session) url method data params
    code header :
  _session self = Some session ->
  exists (self' : t) (headers : dict),
    let r := {| rq_method := method;
                rq_url := _baseurl self ++ "/" ++ url;
                rq_auth := (_username self, _password self);
                rq_data := if _gzip self then option_map gzip_compress data
                           else data;
                rq_headers := headers;
                rq_params := match params with None => [] | Some p => p end |}
    in
    request url method data params code header self
    = (if status_code (session r) =? code then Ok (session r)
       else Raise (Exception (status_code (session r)) (content (session r))),
       self', [r])
    /\ (_gzip self = true ->
        dict_get "Accept-Encoding" headers = Some (PStr "gzip")
        /\ dict_get "Content-Encoding" headers = Some (PStr "gzip"))
    /\ (_gzip self = false ->
        self' = self
        /\ headers = deref (match header with None => SelfHeaders | Some h => h end)
                           self)
    /\ _database self' = _database self
    /\ _session self' = _session self.
Proof.
  intros Hs.
  set (href := match header with None => SelfHeaders | Some h => h end).
  set (gz := [ ("Accept-Encoding", PStr "gzip");
               ("Content-Encoding", PStr "gzip") ]).
  exists (if _gzip self then
            match href with
            | SelfHeaders => set_headers (dict_update (_headers self) gz) self
            | SelfWriteHeaders =>
                set_write_headers (dict_update (_write_headers self) gz) self
            | Own _ => self
            end
          else self).
  exists (if _gzip self then dict_update (deref href self) gz
          else deref href self).
  unfold request, mbind, get, ret, lift. fold href. fold gz.
  destruct (_gzip self) eqn:Hgz.
  - split; [|split; [|split; [|split]]].
    + destruct href as [| |own]; cbn [header_update];
        unfold session_request; cbn [_session set_headers set_write_headers];
        rewrite Hs; cbn [deref _headers _write_headers set_headers
                          set_write_headers _username _password app];
        destruct (status_code _ =? code); reflexivity.
    + intros _. unfold dict_update, gz. cbn [fold_left fst snd].
      split; [rewrite dict_get_set_other by discriminate|];
        apply dict_get_set_same.
    + discriminate.
    + destruct href; reflexivity.
    + destruct href; reflexivity.
  - unfold session_request. rewrite Hs. cbn [app].
    split; [|split; [|split; [|split]]].
    + destruct (status_code _ =? code); reflexivity.
    + discriminate.
    + intros _. split; reflexivity.
    + reflexivity.
    + reflexivity.
Qed.

End ClientFacts.

Section ClientClaims.

Context {phost : PointHost} {host : ClientHost}.

Import OpenGeminiClient.

Ltac dict_other := repeat rewrite dict_get_set_other by discriminate.

(** The parameters [query] builds when the caller gave no [db] and no
    bind parameters. *)
Lemma query_params_plain (self : t) S params chunked chunk_size epoch :
  dict_get "db" (match params with None => [] | Some p => p end) = None ->
  exists p,
    query_params self S params chunked chunk_size epoch None = Ok p
    /\ dict_get "q" p = Some (PStr S)
    /\ dict_get "db" p = Some (_database self).
Proof.
  intros Hdb. unfold query_params.
  set (p0 := match params with None => [] | Some p => p end) in *.
  destruct (is_None epoch), chunked, (chunk_size >? 0);
    cbn [negb bind]; unfold dict_get_default; dict_other; rewrite Hdb;
    cbn [is_None]; eexists; (split; [reflexivity|]);
    (split; [dict_other|]); apply dict_get_set_same.
Qed.

(** The same with bind parameters: the JSON text under [params] is
    decoded, updated and encoded again. *)
Lemma query_params_bound (self : t) S params chunked chunk_size epoch
    bind_params text prior out :
  dict_get "db" (match params with None => [] | Some p => p end) = None ->
  dict_get_default "params" (PStr "{}")
    (match params with None => [] | Some p => p end) = PStr text ->
  json_loads text = Ok (PDict prior) ->
  json_dumps (PDict (dict_update prior bind_params)) = Ok out ->
  exists p,
    query_params self S params chunked chunk_size epoch (Some bind_params)
    = Ok p
    /\ dict_get "q" p = Some (PStr S)
    /\ dict_get "db" p = Some (_database self)
    /\ dict_get "params" p = Some (PStr out).
Proof.
  intros Hdb Hprior Hloads Hdumps. unfold query_params.
  set (p0 := match params with None => [] | Some p => p end) in *.
  unfold dict_get_default in Hprior.
  destruct (is_None epoch), chunked, (chunk_size >? 0);
    cbn [negb]; unfold dict_get_default; dict_other;
    (destruct (dict_get "params" p0) as [v|]; rewrite Hprior);
    cbn [as_str bind]; rewrite Hloads; cbn [bind]; rewrite Hdumps;
    cbn [bind]; dict_other; rewrite Hdb; cbn [is_None];
    eexists; (split; [reflexivity|]);
    (split; [dict_other; apply dict_get_set_same|]);
    (split; [apply dict_get_set_same|]);
    dict_other; apply dict_get_set_same.
Qed.

(** [query] hands the parameters it built to [request]. *)
Lemma query_sends (self : t) (session : Session) S params chunked chunk_size
    epoch bind_params method p :
  _session self = Some session ->
  query_params self S params chunked chunk_size epoch bind_params = Ok p ->
  exists r,
    snd (query S params chunked chunk_size epoch bind_params method self) = [r]
    /\ rq_params r = p
    /\ rq_method r = method
    /\ rq_url r = _baseurl self ++ "/query".
Proof.
  intros Hs Hp. unfold query, mbind, get, lift. rewrite Hp.
  destruct (request_sends self session "query" method None (Some p) 200 None Hs)
    as (self' & headers & Hreq & _).
  cbv zeta in Hreq. rewrite Hreq.
  eexists. split; [|split; [|split]].
  - destruct (status_code _ =? 200); reflexivity.
  - reflexivity.
  - reflexivity.
  - reflexivity.
Qed.

(** C8.  Without a [db] among the caller's parameters, the request that
    [query] sends carries [q] = the statement and [db] = the client's
    current database; with bind parameters it also carries under [params]
    the JSON text of the earlier [params] object updated with them, where
    a key of the bind parameters has the value given there. *)
Theorem query_request_parameters (self : t) (session : Session) (S : string)
    (params : option dict) (chunked : bool) (chunk_size : Z) (epoch : pyval)
    (method : string) :
  _session self = Some session ->
  dict_get "db" (match params with None => [] | Some p => p end) = None ->
  (exists r,
      snd (query S params chunked chunk_size epoch None method self) = [r]
      /\ dict_get "q" (rq_params r) = Some (PStr S)
      /\ dict_get "db" (rq_params r) = Some (_database self))
  /\ (forall bind_params text prior out,
         NoDup (map fst bind_params) ->
         dict_get_default "params" (PStr "{}")
           (match params with None => [] | Some p => p end) = PStr text ->
         json_loads text = Ok (PDict prior) ->
         json_dumps (PDict (dict_update prior bind_params)) = Ok out ->
         (exists r,
             snd (query S params chunked chunk_size epoch (Some bind_params)
                        method self) = [r]
             /\ dict_get "q" (rq_params r) = Some (PStr S)
             /\ dict_get "db" (rq_params r) = Some (_database self)
             /\ dict_get "params" (rq_params r) = Some (PStr out))
         /\ forall k,
             dict_get k (dict_update prior bind_params)
             = match dict_get k bind_params with
               | Some v => Some v
               | None => dict_get k prior
               end).
Proof.
  intros Hs Hdb. split.
  - destruct (query_params_plain self S params chunked chunk_size epoch Hdb)
      as (p & Hp & Hq & Hd).
    destruct (query_sends self session S params chunked chunk_size epoch None
                          method p Hs Hp) as (r & Hsent & Hr & _).
    exists r. rewrite Hr. auto.
  - intros bind_params text prior out Hnd Hprior Hloads Hdumps. split.
    + destruct (query_params_bound self S params chunked chunk_size epoch
                  bind_params text prior out Hdb Hprior Hloads Hdumps)
        as (p & Hp & Hq & Hd & Hpa).
      destruct (query_sends self session S params chunked chunk_size epoch
                            (Some bind_params) method p Hs Hp)
        as (r & Hsent & Hr & _).
      exists r. rewrite Hr. auto.
    + intros k. now apply dict_get_update.
Qed.

(** C9.  [write] sends one POST to the write endpoint; its body is the
    UTF-8 bytes of the line followed by a newline, gzip-compressed when
    the client's flag is set; its parameters are the current database
    under [db] and the given precision; the call returns when the status
    is 204 and raises otherwise. *)
Theorem write_request (self : t) (session : Session) (L : string)
    (precision : pyval) :
  _session self = Some session ->
  exists (r : http_request) (self' : t),
    write L precision self
    = (if status_code (session r) =? 204 then Ok tt
       else Raise (Exception (status_code (session r)) (content (session r))),
       self', [r])
    /\ rq_method r = "POST"
    /\ rq_url r = _baseurl self ++ "/write"
    /\ rq_data r
       = Some (if _gzip self then gzip_compress (encode_utf8 (L ++ newline))
               else encode_utf8 (L ++ newline))
    /\ rq_params r = [ ("db", _database self); ("precision", precision) ]
    /\ (_gzip self = true ->
        dict_get "Content-Encoding" (rq_headers r) = Some (PStr "gzip")).
Proof.
  intros Hs. unfold write, mbind, get, ret.
  destruct (request_sends self session "write" "POST"
              (Some (encode_utf8 (String.concat newline [L] ++ newline)))
              (Some [ ("db", _database self); ("precision", precision) ])
              204 (Some SelfWriteHeaders) Hs)
    as (self' & headers & Hreq & Hgz & _).
  cbv zeta in Hreq. rewrite Hreq.
  match type of Hreq with
  | _ = (_, _, [?r]) => exists r
  end.
  exists self'. split; [|split; [|split; [|split; [|split]]]].
  - destruct (status_code _ =? 204); reflexivity.
  - reflexivity.
  - reflexivity.
  - cbn [rq_data String.concat]. destruct (_gzip self); reflexivity.
  - reflexivity.
  - intros H. apply (Hgz H).
Qed.

End ClientClaims.

Section ClientDefects.

Context {phost : PointHost} {host : ClientHost}.

Import OpenGeminiClient.

(** C5.  [create_retention_policy] with a shard duration: the statement
    ends in the text [{shard_duration}] itself, whatever the value is,
    while [alter_retention_policy] puts the value there. *)
Theorem create_retention_policy_shard_duration (self : t) (c : ascii)
    (rest : string) :
  create_retention_policy_statement self (PStr "rp") (PInt 1) (PStr "1h")
    (PStr "db") (PBool false) (PStr (String c rest))
  = Ok ("CREATE RETENTION POLICY " ++ dq ++ "rp" ++ dq
        ++ " ON " ++ dq ++ "db" ++ dq
        ++ " DURATION 1h REPLICATION 1 SHARD DURATION {shard_duration}")
  /\ alter_retention_policy_statement self (PStr "rp") (PStr "db") PNone
       PNone PNone (PStr (String c rest))
     = Ok ("ALTER RETENTION POLICY " ++ dq ++ "rp" ++ dq
           ++ " ON " ++ dq ++ "db" ++ dq
           ++ " SHARD DURATION " ++ String c rest).
Proof. split; reflexivity. Qed.

(** C6.  The database and user helpers put their arguments into the
    statement as they are; a name with a space stays unescaped, unlike in
    the retention policy helpers. *)
Theorem ddl_identifiers_are_raw (self : t) (name password : string) :
  create_database_statement (PStr name) = Ok ("CREATE DATABASE " ++ name)
  /\ drop_database_statement (PStr name) = Ok ("DROP DATABASE " ++ name)
  /\ create_user_statement (PStr name) (PStr password) (PBool false)
     = Ok ("CREATE USER " ++ name ++ " WITH PASSWORD " ++ password)
  /\ drop_user_statement (PStr name) = Ok ("DROP USER " ++ name)
  /\ create_database_statement (PStr "my db") = Ok "CREATE DATABASE my db"
  /\ create_database_statement (PStr "my db")
     <> Ok ("CREATE DATABASE " ++ translate escape_name "my db")
  /\ show_retention_policy_statement self (PStr "my db")
     = Ok ("SHOW RETENTION POLICIES ON " ++ dq ++ "my\ db" ++ dq).
Proof.
  repeat split; try reflexivity. discriminate.
Qed.

(** C7.  A session given to the constructor is not stored: the instance
    has no [_session], and [request] fails with [AttributeError] before
    anything is sent. *)
Theorem supplied_session_is_dropped (hostname : string) (port : Z)
    (username password : string) (database : pyval) (session : Session)
    (gzip : bool) url method data params code header :
  _session (__init__ hostname port username password database
                     (Some session) gzip) = None
  /\ fst (fst (request url method data params code header
                 (__init__ hostname port username password database
                           (Some session) gzip)))
     = Raise AttributeError
  /\ snd (request url method data params code header
            (__init__ hostname port username password database
                      (Some session) gzip))
     = []
  /\ _session (__init__ hostname port username password database None gzip)
     = Some requests_Session.
Proof.
  split; [reflexivity|]. split; [|split; [|reflexivity]].
  - destruct gzip, header as [[| |own]|]; reflexivity.
  - destruct gzip, header as [[| |own]|]; reflexivity.
Qed.

End ClientDefects.

(** *** The client on concrete calls *)

Lemma query_request_parameters_witness :
  OpenGeminiClient._session example_client = Some example_session
  /\ (exists r,
         snd (OpenGeminiClient.query "select * from weather" None false 0
                PNone None "GET" example_client) = [r]
         /\ dict_get "q" (rq_params r) = Some (PStr "select * from weather")
         /\ dict_get "db" (rq_params r) = Some (PStr "database"))
  /\ (exists r,
         snd (OpenGeminiClient.query "select * from weather"
                (Some [ ("params",
                         PStr ("{" ++ dq ++ "a" ++ dq ++ ": 1, "
                                   ++ dq ++ "b" ++ dq ++ ": 2}")) ])
                false 0 PNone (Some [ ("b", PInt 3) ]) "GET" example_client)
         = [r]
         /\ dict_get "params" (rq_params r)
            = Some (PStr ("{" ++ dq ++ "a" ++ dq ++ ": 1, "
                              ++ dq ++ "b" ++ dq ++ ": 3}"))).
Proof.
  split; [reflexivity|]. split.
  - exact (proj1 (@query_request_parameters
                    example_client_host example_client
                    example_session "select * from weather" None false 0
                    PNone "GET" eq_refl eq_refl)).
  - destruct (proj2 (@query_request_parameters
                       example_client_host example_client
                       example_session "select * from weather"
                       (Some [ ("params",
                                PStr ("{" ++ dq ++ "a" ++ dq ++ ": 1, "
                                          ++ dq ++ "b" ++ dq ++ ": 2}")) ])
                       false 0 PNone "GET" eq_refl eq_refl)
                    [ ("b", PInt 3) ]
                    ("{" ++ dq ++ "a" ++ dq ++ ": 1, "
                         ++ dq ++ "b" ++ dq ++ ": 2}")
                    [ ("a", PInt 1); ("b", PInt 2) ]
                    ("{" ++ dq ++ "a" ++ dq ++ ": 1, "
                         ++ dq ++ "b" ++ dq ++ ": 3}")
                    ltac:(repeat constructor; cbn; tauto)
                    eq_refl eq_refl eq_refl)
      as ((r & Hsent & _ & _ & Hparams) & _).
    exists r. split; assumption.
Defined.

Lemma write_request_witness :
  OpenGeminiClient._session example_client = Some example_session
  /\ (exists r self',
         OpenGeminiClient.write weather_line (PStr "ns") example_client
         = (Ok tt, self', [r])
         /\ rq_data r = Some (encode_utf8 (weather_line ++ newline)))
  /\ (exists r self',
         OpenGeminiClient.write weather_line (PStr "ns") example_gzip_client
         = (Ok tt, self', [r])
         /\ rq_data r
            = Some (gzip_compress (encode_utf8 (weather_line ++ newline)))
         /\ dict_get "Content-Encoding" (rq_headers r) = Some (PStr "gzip")).
Proof.
  split; [reflexivity|]. split.
  - destruct (@write_request example_client_host example_client
                example_session weather_line (PStr "ns") eq_refl)
      as (r & self' & Hw & _ & _ & Hdata & _).
    exists r, self'. split; [|exact Hdata].
    rewrite Hw. f_equal. f_equal.
    assert (Hst : status_code (example_session r) = 204)
      by (unfold example_session; now rewrite Hdata).
    now rewrite Hst.
  - destruct (@write_request example_client_host
                example_gzip_client example_session weather_line (PStr "ns")
                eq_refl)
      as (r & self' & Hw & _ & _ & Hdata & _ & Hgz).
    exists r, self'. split; [|split; [exact Hdata | exact (Hgz eq_refl)]].
    rewrite Hw. f_equal. f_equal.
    assert (Hst : status_code (example_session r) = 204)
      by (unfold example_session; now rewrite Hdata).
    now rewrite Hst.
Defined.

(** * Further properties of the encoder *)

(** ** Escaping *)

Lemma occurs_append c a b : occurs c (a ++ b) = occurs c a || occurs c b.
Proof.
  induction a as [|x a IH]; cbn; [reflexivity|].
  now rewrite IH, orb_assoc.
Qed.

Lemma translate_append t a b :
  translate t (a ++ b) = translate t a ++ translate t b.
Proof.
  induction a as [|x a IH]; cbn; [reflexivity|].
  now rewrite IH, append_assoc.
Qed.

Lemma translate_char_name_nonempty c : translate_char escape_name c <> "".
Proof.
  unfold translate_char, escape_name. cbn [table_get].
  repeat match goal with
         | |- context [Ascii.eqb ?a ?b] => destruct (Ascii.eqb a b)
         end; discriminate.
Qed.

Lemma translate_name_empty s :
  (translate escape_name s =? "")%string = (s =? "")%string.
Proof.
  destruct s as [|c r]; [reflexivity|]. cbn [translate].
  pose proof (translate_char_name_nonempty c) as H.
  destruct (translate_char escape_name c); [congruence | reflexivity].
Qed.

(** Escaped names and measurement names hold no newline, tab or carriage
    return: each is replaced by a backslash and a letter. *)
Theorem escaped_names_hold_no_control_character (s : string) :
  occurs "010" (translate escape_name s) = false
  /\ occurs "009" (translate escape_name s) = false
  /\ occurs "013" (translate escape_name s) = false
  /\ occurs "010" (translate escape_measurement s) = false
  /\ occurs "009" (translate escape_measurement s) = false
  /\ occurs "013" (translate escape_measurement s) = false.
Proof.
  assert (Hc : forall c,
             occurs "010" (translate_char escape_name c) = false
             /\ occurs "009" (translate_char escape_name c) = false
             /\ occurs "013" (translate_char escape_name c) = false
             /\ occurs "010" (translate_char escape_measurement c) = false
             /\ occurs "009" (translate_char escape_measurement c) = false
             /\ occurs "013" (translate_char escape_measurement c) = false).
  { intros [[] [] [] [] [] [] [] []]; repeat split; reflexivity. }
  induction s as [|c r IH]; [repeat split; reflexivity|].
  cbn [translate]. rewrite !occurs_append.
  destruct (Hc c) as (H1 & H2 & H3 & H4 & H5 & H6).
  destruct IH as (I1 & I2 & I3 & I4 & I5 & I6).
  rewrite H1, H2, H3, H4, H5, H6, I1, I2, I3, I4, I5, I6.
  repeat split; reflexivity.
Qed.

Lemma translate_char_field_value c :
  (c = "034"%char /\ translate_char escape_field_value c = String "\" dq)
  \/ (c = "\"%char /\ translate_char escape_field_value c = "\\")
  \/ (c <> "034"%char /\ c <> "\"%char
      /\ translate_char escape_field_value c = String c "").
Proof.
  unfold translate_char, escape_field_value. cbn [table_get].
  destruct (Ascii.eqb_spec c "034") as [->|Hq]; [left; split; reflexivity|].
  destruct (Ascii.eqb_spec c "\") as [->|Hb].
  - right. left. split; reflexivity.
  - right. right. repeat split; assumption.
Qed.

(** The escaping of a string field value loses nothing: two values with
    the same escaped text are the same value. *)
Theorem escape_field_value_injective : forall s1 s2 : string,
  translate escape_field_value s1 = translate escape_field_value s2 ->
  s1 = s2.
Proof.
  induction s1 as [|c1 r1 IH]; intros [|c2 r2]; cbn [translate]; intros H.
  - reflexivity.
  - exfalso.
    destruct (translate_char_field_value c2) as [[_ E]|[[_ E]|(_ & _ & E)]];
      rewrite E in H; discriminate.
  - exfalso.
    destruct (translate_char_field_value c1) as [[_ E]|[[_ E]|(_ & _ & E)]];
      rewrite E in H; discriminate.
  - destruct (translate_char_field_value c1)
      as [[-> E1]|[[-> E1]|(Hq1 & Hb1 & E1)]];
      destruct (translate_char_field_value c2)
        as [[-> E2]|[[-> E2]|(Hq2 & Hb2 & E2)]];
      rewrite ?E1, ?E2 in H; cbn in H;
      try (injection H as H; f_equal; now apply IH);
      try discriminate;
      try (injection H as Hc H; congruence).
    injection H as Hc H. subst c2. f_equal. now apply IH.
Qed.

(** The escaping of names does lose something: a newline and the two
    characters backslash, n come out alike. *)
Theorem escape_name_not_injective :
  exists s1 s2 : string,
    s1 <> s2 /\ translate escape_name s1 = translate escape_name s2.
Proof.
  exists newline, "\n". split; [discriminate | reflexivity].
Qed.

(** ** The shape of the line *)

Lemma drop_first_glue toks : drop_first (glue toks) = String.concat "," toks.
Proof.
  destruct toks as [|token toks]; [reflexivity|].
  cbn [glue append drop_first].
  revert token. induction toks as [|token' toks IH]; intros token.
  - cbn. apply append_nil_r.
  - change (String.concat "," (token :: token' :: toks))
      with (token ++ "," ++ String.concat "," (token' :: toks)).
    now rewrite <- IH.
Qed.

Lemma tags_loop_tokens items : forall tags,
  Forall (fun kv => is_None (snd kv) || isinstance_str (snd kv) = true) items ->
  Point.tags_loop items tags = Ok (tags ++ glue (tokens tag_token items)).
Proof.
  induction items as [|[key value] rest IH]; intros tags H.
  - cbn. now rewrite append_nil_r.
  - inversion H as [|? ? Hv Hrest]; subst.
    destruct value as [|v|b|z|x|l|l|d|d]; try discriminate;
      cbn [Point.tags_loop is_None as_str tokens tag_token fst snd].
    + now apply IH.
    + rewrite !translate_name_empty.
      destruct (key =? "")%string, (v =? "")%string; cbn [negb andb orb];
        try (now apply IH).
      rewrite IH by exact Hrest. cbn [glue]. now rewrite !append_assoc.
Qed.

Section LineShape.

Context {host : PointHost}.

Lemma fields_loop_tokens items : forall fields,
  Point.fields_loop items fields
  = Ok (fields ++ glue (tokens field_token items)).
Proof.
  induction items as [|[key value] rest IH]; intros fields.
  - cbn. now rewrite append_nil_r.
  - destruct value as [|s|b|z|x|l|l|d|d];
      cbn [Point.fields_loop is_None as_str as_float isinstance_bool
           isinstance_int py_str bind tokens field_token fst snd];
      try destruct (is_finite x); cbn [negb bind];
      rewrite IH; cbn [glue]; try reflexivity;
      try (destruct b; cbn [str_bool lower]);
      now rewrite !append_assoc.
Qed.

(** The line of a well-formed point: nothing when no field gives a
    token; else the escaped measurement name, the tokens of the sorted
    tags each behind a comma, a space, the field tokens joined by commas
    in the order of the dict, and the timestamp token. *)
Theorem line_format (self : Point.t) (measurement : string) :
  Point._measurement self = PStr measurement ->
  Forall (fun kv => is_None (snd kv) || isinstance_str (snd kv) = true)
         (Point._tags self) ->
  is_None (Point._time self) || isinstance_int (Point._time self) = true ->
  Point.to_line_protocol self
  = Ok match tokens field_token (Point._fields self) with
       | [] => ""
       | toks =>
           translate escape_measurement measurement
           ++ glue (tokens tag_token (sorted (Point._tags self)))
           ++ " " ++ String.concat "," toks
           ++ time_token (Point._time self)
       end.
Proof.
  intros Hm Htags Htime.
  unfold Point.to_line_protocol, Point.measurement_text.
  rewrite Hm. cbn [as_str bind].
  rewrite tags_loop_tokens by now apply sorted_Forall.
  rewrite fields_loop_tokens. cbn [bind append].
  destruct (tokens field_token (Point._fields self)) as [|token toks] eqn:E;
    [reflexivity|].
  rewrite <- (drop_first_glue (token :: toks)).
  cbn [glue append String.eqb drop_first].
  destruct (Point._time self) as [| |b|z| | | | |]; try discriminate;
    reflexivity.
Qed.

End LineShape.

Lemma line_format_witness :
  Point.to_line_protocol (example_point "my test")
  = Ok ("my\ test,backslash_tag=C:\,string_tag=hello "
        ++ "int_val=1i,float_val=1.1,bool_val=true,string_val="
        ++ dq ++ "hello" ++ dq).
Proof.
  rewrite (@line_format example_host (example_point "my test") "my test"
             eq_refl).
  - reflexivity.
  - repeat constructor.
  - reflexivity.
Defined.

(** ** Tags: order, silence and errors *)

Lemma insert_item_perm x l : Permutation (x :: l) (insert_item x l).
Proof.
  induction l as [|y l IH]; cbn; [reflexivity|].
  destruct (String.leb (fst x) (fst y)); [reflexivity|].
  rewrite perm_swap. now apply perm_skip.
Qed.

Lemma sorted_perm l : Permutation l (sorted l).
Proof.
  induction l as [|x l IH]; cbn; [constructor|].
  rewrite <- insert_item_perm. now apply perm_skip.
Qed.

Lemma ordered_unique a : forall b,
  ordered a -> ordered b -> Permutation a b -> NoDup (map fst a) -> a = b.
Proof.
  induction a as [|x a IH]; intros b Ha Hb Hp Hnd.
  - apply Permutation_nil in Hp. now subst.
  - destruct b as [|y b].
    { apply Permutation_sym, Permutation_nil in Hp. discriminate. }
    inversion Ha as [|? ? Hxa Ha']; subst.
    inversion Hb as [|? ? Hyb Hb']; subst.
    inversion Hnd as [|? ? Hnotin Hnd']; subst.
    assert (Hxy : x = y).
    { assert (Hx : In x (y :: b))
        by (eapply Permutation_in; [exact Hp | now left]).
      assert (Hy : In y (x :: a))
        by (eapply Permutation_in;
            [apply Permutation_sym; exact Hp | now left]).
      destruct Hx as [Hx|Hx]; [now symmetry|].
      destruct Hy as [Hy|Hy]; [assumption|].
      exfalso. apply Hnotin.
      rewrite Forall_forall in Hxa, Hyb.
      pose proof (Hxa y Hy) as Hle1. pose proof (Hyb x Hx) as Hle2.
      unfold key_le in *.
      rewrite (String.leb_antisym _ _ Hle1 Hle2).
      now apply in_map. }
    subst y. f_equal. apply IH; try assumption.
    now apply Permutation_cons_inv in Hp.
Qed.

Lemma sorted_permutation l l' :
  Permutation l l' -> NoDup (map fst l) -> sorted l = sorted l'.
Proof.
  intros Hp Hnd. apply ordered_unique.
  - apply sorted_ordered.
  - apply sorted_ordered.
  - rewrite <- (sorted_perm l), <- (sorted_perm l'). exact Hp.
  - eapply Permutation_NoDup; [|exact Hnd].
    apply Permutation_map, sorted_perm.
Qed.

Lemma tags_loop_silent items : forall tags,
  Point.tags_loop items tags
  = Point.tags_loop (filter (fun kv => negb (silent_tag kv)) items) tags.
Proof.
  induction items as [|[key value] rest IH]; intros tags; [reflexivity|].
  destruct value as [|v|b|z|x|l|l|d|d];
    cbn [filter silent_tag fst snd negb]; try reflexivity.
  - cbn [Point.tags_loop is_None]. apply IH.
  - cbn [Point.tags_loop is_None as_str].
    rewrite !translate_name_empty.
    destruct (key =? "")%string eqn:Ek, (v =? "")%string eqn:Ev;
      cbn [negb andb orb]; try apply IH.
    cbn [Point.tags_loop is_None as_str].
    rewrite !translate_name_empty, Ek, Ev. cbn [negb andb]. apply IH.
Qed.

Lemma tags_loop_bad items : forall tags,
  Exists bad_tag items -> Point.tags_loop items tags = Raise AttributeError.
Proof.
  induction items as [|[key value] rest IH]; intros tags H.
  - inversion H.
  - destruct value as [|v|b|z|x|l|l|d|d];
      cbn [Point.tags_loop is_None as_str]; try reflexivity.
    + apply IH. inversion H as [? ? [Hn _]|]; subst; [discriminate|assumption].
    + assert (Hrest : Exists bad_tag rest)
        by (inversion H as [? ? [_ Hs]|]; subst; [discriminate|assumption]).
      destruct (negb _ && negb _); now apply IH.
Qed.

Section TagFacts.

Context {host : PointHost}.

(** The order in which the tags were set does not show: two points whose
    tags are the same entries in another order render alike. *)
Theorem tag_order_is_irrelevant (self : Point.t) (tags : dict) :
  Permutation (Point._tags self) tags ->
  NoDup (map fst (Point._tags self)) ->
  Point.to_line_protocol (Point.set_tags tags self)
  = Point.to_line_protocol self.
Proof.
  intros Hp Hnd. unfold Point.to_line_protocol.
  cbn [Point.set_tags Point._tags].
  now rewrite (sorted_permutation _ _ Hp Hnd).
Qed.

(** A tag with an empty key or an empty value leaves no trace, like a
    null one. *)
Theorem silent_tag_is_absent (self : Point.t) pre kv post :
  Point._tags self = (pre ++ kv :: post)%list ->
  silent_tag kv = true ->
  Point.to_line_protocol self
  = Point.to_line_protocol (Point.set_tags (pre ++ post)%list self).
Proof.
  intros Ht Hs. unfold Point.to_line_protocol.
  cbn [Point.set_tags Point._tags]. rewrite Ht.
  rewrite (tags_loop_silent (sorted (pre ++ kv :: post))).
  rewrite (tags_loop_silent (sorted (pre ++ post))).
  rewrite !filter_sorted, !filter_app. cbn [filter]. now rewrite Hs.
Qed.

(** A measurement name that is not a string, or a tag value that is
    neither null nor a string, makes the encoder raise [AttributeError],
    whatever the fields are, even when there are none. *)
Theorem encoder_attribute_errors (self : Point.t) :
  as_str (Point._measurement self) = None
  \/ Exists bad_tag (Point._tags self) ->
  Point.to_line_protocol self = Raise AttributeError.
Proof.
  intros H. unfold Point.to_line_protocol, Point.measurement_text.
  destruct (as_str (Point._measurement self)); cbn [bind]; [|reflexivity].
  destruct H as [H|H]; [discriminate|].
  rewrite tags_loop_bad; [reflexivity|].
  apply Exists_exists in H. destruct H as (kv & Hin & Hbad).
  apply Exists_exists. exists kv. split; [|exact Hbad].
  eapply Permutation_in; [apply sorted_perm | exact Hin].
Qed.

(** An error of the timestamp normaliser comes out of the encoder exactly
    when some field gives a token; without one the time is not looked
    at. *)
Theorem time_error_needs_a_field (self : Point.t) (measurement : string)
    (e : exn) :
  Point._measurement self = PStr measurement ->
  Forall (fun kv => is_None (snd kv) || isinstance_str (snd kv) = true)
         (Point._tags self) ->
  _convert_timestamp (Point._time self) = Raise e ->
  Point.to_line_protocol self
  = match tokens field_token (Point._fields self) with
    | [] => Ok ""
    | _ => Raise e
    end.
Proof.
  intros Hm Htags He.
  unfold Point.to_line_protocol, Point.measurement_text.
  rewrite Hm. cbn [as_str bind].
  rewrite tags_loop_tokens by now apply sorted_Forall.
  rewrite fields_loop_tokens. cbn [bind append].
  destruct (tokens field_token (Point._fields self)) as [|token toks];
    [reflexivity|].
  cbn [glue append String.eqb]. now rewrite He.
Qed.

End TagFacts.

Lemma tag_order_is_irrelevant_witness :
  Point.to_line_protocol
    (two_tags_point ("rack", PStr "r1") ("host", PStr "a"))
  = Point.to_line_protocol
      (two_tags_point ("host", PStr "a") ("rack", PStr "r1")).
Proof.
  apply (@tag_order_is_irrelevant example_host
           (two_tags_point ("host", PStr "a") ("rack", PStr "r1"))
           [ ("rack", PStr "r1"); ("host", PStr "a") ]).
  - apply perm_swap.
  - repeat constructor; cbn; intuition discriminate.
Defined.

Lemma silent_tag_is_absent_witness :
  Point.to_line_protocol (two_tags_point ("host", PStr "a") ("", PStr "r1"))
  = Point.to_line_protocol
      (Point.set_tags [ ("host", PStr "a") ]
         (two_tags_point ("host", PStr "a") ("", PStr "r1")))
  /\ Point.to_line_protocol
       (two_tags_point ("host", PStr "a") ("rack", PStr ""))
     = Point.to_line_protocol
         (Point.set_tags [ ("host", PStr "a") ]
            (two_tags_point ("host", PStr "a") ("rack", PStr ""))).
Proof.
  split.
  - exact (@silent_tag_is_absent example_host
             (two_tags_point ("host", PStr "a") ("", PStr "r1"))
             [ ("host", PStr "a") ] ("", PStr "r1") [] eq_refl eq_refl).
  - exact (@silent_tag_is_absent example_host
             (two_tags_point ("host", PStr "a") ("rack", PStr ""))
             [ ("host", PStr "a") ] ("rack", PStr "") [] eq_refl eq_refl).
Defined.

Lemma encoder_attribute_errors_witness :
  Point.to_line_protocol (Point.__init__ PNone) = Raise AttributeError
  /\ Point.to_line_protocol
       (two_tags_point ("host", PStr "a") ("rack", PInt 7))
     = Raise AttributeError.
Proof.
  split.
  - apply (@encoder_attribute_errors example_host). left. reflexivity.
  - apply (@encoder_attribute_errors example_host). right.
    apply Exists_cons_tl, Exists_cons_hd. split; reflexivity.
Defined.

Lemma time_error_needs_a_field_witness :
  Point.to_line_protocol
    (Point.time (PFloat 1.5) (PStr "ns") (example_point "test"))
  = Raise (ValueError (PFloat 1.5))
  /\ Point.to_line_protocol
       (Point.time (PStr "yesterday") (PStr "ns") (example_point "test"))
     = Raise (ParserError "yesterday").
Proof.
  split.
  - exact (@time_error_needs_a_field example_host
             (Point.time (PFloat 1.5) (PStr "ns") (example_point "test"))
             "test" (ValueError (PFloat 1.5)) eq_refl
             ltac:(repeat constructor) eq_refl).
  - exact (@time_error_needs_a_field example_host
             (Point.time (PStr "yesterday") (PStr "ns") (example_point "test"))
             "test" (ParserError "yesterday") eq_refl
             ltac:(repeat constructor) eq_refl).
Defined.

(** ** Building a point *)

Lemma dict_set_keys k v (d : dict) :
  map fst (dict_set k v d)
  = match dict_get k d with
    | Some _ => map fst d
    | None => (map fst d ++ [k])%list
    end.
Proof.
  induction d as [|[k' v'] d IH]; cbn; [reflexivity|].
  destruct (k =? k')%string eqn:E; cbn.
  - apply String.eqb_eq in E. now subst.
  - rewrite IH. now destruct (dict_get k d).
Qed.

Lemma dict_get_in_keys k (d : dict) v :
  dict_get k d = Some v -> In k (map fst d).
Proof.
  induction d as [|[k' v'] d IH]; cbn; [discriminate|].
  destruct (k =? k')%string eqn:E.
  - apply String.eqb_eq in E. auto.
  - auto.
Qed.

Lemma dict_get_none_keys k (d : dict) :
  dict_get k d = None -> ~ In k (map fst d).
Proof.
  induction d as [|[k' v'] d IH]; cbn; [tauto|].
  destruct (k =? k')%string eqn:E; [discriminate|].
  apply String.eqb_neq in E. intros H [Hk|Hk]; [congruence|].
  now apply IH.
Qed.

Lemma dict_set_NoDup k v (d : dict) :
  NoDup (map fst d) -> NoDup (map fst (dict_set k v d)).
Proof.
  intros H. rewrite dict_set_keys.
  destruct (dict_get k d) eqn:E; [exact H|].
  apply NoDup_app; [exact H | repeat constructor; intros [] |].
  intros x Hx [<-|[]]. now apply (dict_get_none_keys _ _ E).
Qed.

Lemma dict_update_NoDup (other d : dict) :
  NoDup (map fst d) -> NoDup (map fst (dict_update d other)).
Proof.
  unfold dict_update. revert d.
  induction other as [|[k v] other IH]; intros d H; cbn [fold_left].
  - exact H.
  - apply IH. now apply dict_set_NoDup.
Qed.

Lemma store_pairs_update (ks : list string) : forall (vs : list pyval) d,
  Point.store_pairs (combine (map PStr ks) vs) d
  = Ok (dict_update d (combine ks vs)).
Proof.
  induction ks as [|k ks IH]; intros vs d; [reflexivity|].
  destruct vs as [|v vs]; [reflexivity|].
  cbn [map combine Point.store_pairs as_str]. rewrite IH. reflexivity.
Qed.

Lemma store_pairs_NoDup kvs : forall d d',
  Point.store_pairs kvs d = Ok d' ->
  NoDup (map fst d) -> NoDup (map fst d').
Proof.
  induction kvs as [|[k v] kvs IH]; intros d d'; cbn [Point.store_pairs].
  - now intros [= <-].
  - destruct (as_str k); [|discriminate].
    intros H Hnd. eapply IH; [exact H|]. now apply dict_set_NoDup.
Qed.

(** [field] with a string key and a value of a supported class: the key
    then has that value, the other keys keep theirs, the tags are as
    before, a key that was there keeps its place and a new one goes to
    the end. *)
Theorem field_stores (self : Point.t) (key : string) (value : pyval) :
  isinstance_str value || isinstance_float value
  || isinstance_bool value || isinstance_int value = true ->
  exists self',
    Point.field (PStr key) value self = Ok self'
    /\ dict_get key (Point._fields self') = Some value
    /\ (forall other, other <> key ->
          dict_get other (Point._fields self')
          = dict_get other (Point._fields self))
    /\ map fst (Point._fields self')
       = match dict_get key (Point._fields self) with
         | Some _ => map fst (Point._fields self)
         | None => (map fst (Point._fields self) ++ [key])%list
         end
    /\ Point._tags self' = Point._tags self
    /\ Point._measurement self' = Point._measurement self
    /\ Point._time self' = Point._time self.
Proof.
  intros Hv. eexists. split.
  - unfold Point.field. cbn [as_str as_seq]. rewrite Hv. reflexivity.
  - cbn [Point.set_fields Point._fields Point._tags Point._measurement
         Point._time].
    split; [apply dict_get_set_same|].
    split; [intros other Hne; now apply dict_get_set_other|].
    split; [apply dict_set_keys|]. auto.
Qed.

(** [tag] with two strings: the same for the tags. *)
Theorem tag_stores (self : Point.t) (key value : string) :
  exists self',
    Point.tag (PStr key) (PStr value) self = Ok self'
    /\ dict_get key (Point._tags self') = Some (PStr value)
    /\ (forall other, other <> key ->
          dict_get other (Point._tags self')
          = dict_get other (Point._tags self))
    /\ map fst (Point._tags self')
       = match dict_get key (Point._tags self) with
         | Some _ => map fst (Point._tags self)
         | None => (map fst (Point._tags self) ++ [key])%list
         end
    /\ Point._fields self' = Point._fields self
    /\ Point._measurement self' = Point._measurement self
    /\ Point._time self' = Point._time self.
Proof.
  eexists. split; [reflexivity|].
  cbn [Point.set_tags Point._fields Point._tags Point._measurement
       Point._time].
  split; [apply dict_get_set_same|].
  split; [intros other Hne; now apply dict_get_set_other|].
  split; [apply dict_set_keys|]. auto.
Qed.

(** The form of [tag] and [field] that takes two sequences, with string
    keys: an [AssertionError] when the lengths differ, else the update of
    the dict with the zipped pairs, whatever the classes of the values
    are. *)
Theorem sequence_form (self : Point.t) (key value : pyval)
    (ks : list string) (vs : list pyval) :
  as_seq key = Some (map PStr ks) ->
  as_seq value = Some vs ->
  Point.tag key value self
  = (if (List.length ks =? List.length vs)%nat
     then Ok (Point.set_tags
                (dict_update (Point._tags self) (combine ks vs)) self)
     else Raise AssertionError)
  /\ Point.field key value self
     = (if (List.length ks =? List.length vs)%nat
        then Ok (Point.set_fields
                   (dict_update (Point._fields self) (combine ks vs)) self)
        else Raise AssertionError).
Proof.
  intros Hk Hv.
  assert (Hs : as_str key = None) by (destruct key; try discriminate; reflexivity).
  unfold Point.tag, Point.field. rewrite Hs, Hk, Hv, length_map.
  destruct (List.length ks =? List.length vs)%nat; [|split; reflexivity].
  rewrite !store_pairs_update. split; reflexivity.
Qed.

(** The keys of both dicts stay pairwise distinct through [tag] and
    [field], in either form. *)
Theorem keys_stay_distinct (self self' : Point.t) (key value : pyval) :
  Point.tag key value self = Ok self'
  \/ Point.field key value self = Ok self' ->
  NoDup (map fst (Point._tags self)) ->
  NoDup (map fst (Point._fields self)) ->
  NoDup (map fst (Point._tags self'))
  /\ NoDup (map fst (Point._fields self')).
Proof.
  intros [H|H] Ht Hf; revert H.
  - unfold Point.tag.
    set (self1 := match as_str key with
                  | Some k =>
                      if isinstance_str value
                      then Point.set_tags
                             (dict_set k value (Point._tags self)) self
                      else self
                  | None => self
                  end).
    assert (H1 : NoDup (map fst (Point._tags self1))
                 /\ Point._fields self1 = Point._fields self).
    { subst self1. destruct (as_str key); [|auto].
      destruct (isinstance_str value); [|auto].
      split; [now apply dict_set_NoDup | reflexivity]. }
    destruct H1 as [H1 H2].
    destruct (as_seq key), (as_seq value);
      try (intros [= <-]; rewrite H2; auto).
    destruct (_ =? _)%nat; [|discriminate].
    destruct (Point.store_pairs _ _) as [d| |] eqn:E; cbn [bind];
      try discriminate.
    intros [= <-]. cbn [Point.set_tags Point._tags Point._fields].
    rewrite H2. split; [|exact Hf].
    eapply store_pairs_NoDup; [exact E | exact H1].
  - unfold Point.field.
    set (self1 := match as_str key with
                  | Some k =>
                      if isinstance_str value || isinstance_float value
                         || isinstance_bool value || isinstance_int value
                      then Point.set_fields
                             (dict_set k value (Point._fields self)) self
                      else self
                  | None => self
                  end).
    assert (H1 : NoDup (map fst (Point._fields self1))
                 /\ Point._tags self1 = Point._tags self).
    { subst self1. destruct (as_str key); [|auto].
      destruct (_ || _); [|auto].
      split; [now apply dict_set_NoDup | reflexivity]. }
    destruct H1 as [H1 H2].
    destruct (as_seq key), (as_seq value);
      try (intros [= <-]; rewrite H2; auto).
    destruct (_ =? _)%nat; [|discriminate].
    destruct (Point.store_pairs _ _) as [d| |] eqn:E; cbn [bind];
      try discriminate.
    intros [= <-]. cbn [Point.set_fields Point._tags Point._fields].
    rewrite H2. split; [exact Ht|].
    eapply store_pairs_NoDup; [exact E | exact H1].
Qed.

Lemma dict_get_In k (d : dict) v : dict_get k d = Some v -> In (k, v) d.
Proof.
  induction d as [|[k' v'] d IH]; cbn; [discriminate|].
  destruct (k =? k')%string eqn:E.
  - apply String.eqb_eq in E. intros [= ->]. subst. now left.
  - auto.
Qed.

Section Unchecked.

Context {host : PointHost}.

(** The sequence form of [tag] does not test the class of a value: a
    value that is neither null nor a string is stored, and the point then
    fails to render. *)
Theorem sequence_form_stores_unchecked (self : Point.t) (key : string)
    (value : pyval) :
  is_None value = false -> isinstance_str value = false ->
  exists self',
    Point.tag (PList [PStr key]) (PList [value]) self = Ok self'
    /\ dict_get key (Point._tags self') = Some value
    /\ Point.to_line_protocol self' = Raise AttributeError.
Proof.
  intros Hn Hs.
  exists (Point.set_tags (dict_set key value (Point._tags self)) self).
  split; [reflexivity|].
  cbn [Point.set_tags Point._tags]. split; [apply dict_get_set_same|].
  unfold Point.to_line_protocol, Point.measurement_text.
  cbn [Point.set_tags Point._tags Point._measurement].
  destruct (as_str (Point._measurement self)); cbn [bind]; [|reflexivity].
  rewrite tags_loop_bad; [reflexivity|].
  apply Exists_exists. exists (key, value). split.
  - eapply Permutation_in; [apply sorted_perm|].
    apply dict_get_In, dict_get_set_same.
  - split; assumption.
Qed.

End Unchecked.

Lemma field_stores_witness :
  exists self',
    Point.field (PStr "bool_val") (PFloat 2.5) (example_point "test")
    = Ok self'
    /\ map fst (Point._fields self')
       = [ "int_val"; "float_val"; "none_field"; "bool_val"; "string_val" ]
    /\ dict_get "bool_val" (Point._fields self') = Some (PFloat 2.5).
Proof.
  destruct (field_stores (example_point "test") "bool_val" (PFloat 2.5)
              eq_refl)
    as (self' & Hcall & Hget & _ & Hkeys & _).
  exists self'. split; [exact Hcall|]. split; [exact Hkeys | exact Hget].
Defined.

Lemma sequence_form_witness :
  Point.tag (PTuple [PStr "host"; PStr "rack"]) (PList [PStr "a"; PStr "r1"])
            (Point.__init__ (PStr "cpu"))
  = Ok (Point.set_tags [ ("host", PStr "a"); ("rack", PStr "r1") ]
                       (Point.__init__ (PStr "cpu")))
  /\ Point.field (PList [PStr "up"]) (PList [PBool true; PInt 1])
                 (Point.__init__ (PStr "cpu"))
     = Raise AssertionError.
Proof.
  split.
  - exact (proj1 (sequence_form (Point.__init__ (PStr "cpu"))
                    (PTuple [PStr "host"; PStr "rack"])
                    (PList [PStr "a"; PStr "r1"])
                    [ "host"; "rack" ] [PStr "a"; PStr "r1"]
                    eq_refl eq_refl)).
  - exact (proj2 (sequence_form (Point.__init__ (PStr "cpu"))
                    (PList [PStr "up"]) (PList [PBool true; PInt 1])
                    [ "up" ] [PBool true; PInt 1] eq_refl eq_refl)).
Defined.

Lemma keys_stay_distinct_witness :
  NoDup (map fst (Point._tags
                    (Point.set_tags [ ("host", PStr "b") ]
                       (Point.__init__ (PStr "cpu")))))
  /\ NoDup (map fst (Point._fields
                       (Point.set_tags [ ("host", PStr "b") ]
                          (Point.__init__ (PStr "cpu"))))).
Proof.
  apply (keys_stay_distinct
           (Point.set_tags [ ("host", PStr "a") ] (Point.__init__ (PStr "cpu")))
           (Point.set_tags [ ("host", PStr "b") ] (Point.__init__ (PStr "cpu")))
           (PStr "host") (PStr "b")).
  - left. reflexivity.
  - repeat constructor. intros [].
  - constructor.
Defined.

Lemma sequence_form_stores_unchecked_witness :
  exists self',
    Point.tag (PList [PStr "rack"]) (PList [PInt 7])
              (example_point "test") = Ok self'
    /\ Point.to_line_protocol self' = Raise AttributeError.
Proof.
  destruct (@sequence_form_stores_unchecked example_host
              (example_point "test") "rack" (PInt 7) eq_refl eq_refl)
    as (self' & Hcall & _ & Herr).
  exists self'. split; assumption.
Defined.

(** ** Timestamps *)

Lemma nanos_of_micros (us : Z) :
  days (timedelta_of_micros us) * 86400 * 10 ^ 9
  + seconds (timedelta_of_micros us) * 10 ^ 9
  + microseconds (timedelta_of_micros us) * 10 ^ 3
  = 1000 * us.
Proof.
  unfold timedelta_of_micros. cbn [days seconds microseconds].
  pose proof (Z.div_mod us 86400000000 ltac:(lia)) as H1.
  pose proof (Z.div_mod (us mod 86400000000) 1000000 ltac:(lia)) as H2.
  lia.
Qed.

Section TimestampFacts.

Context {host : PointHost}.

(** A calendar timestamp normalises to a whole number of microseconds in
    nanoseconds.  The same instant written with another UTC offset gives
    the same number, and a naive timestamp gives what the same reading
    with offset zero gives. *)
Theorem timestamp_of_an_instant (ordinal second microsecond : Z)
    (offset : option Z) (shift : Z) :
  (exists us,
      _convert_timestamp
        (PDatetime (mk_datetime ordinal second microsecond offset))
      = Ok (PInt (1000 * us)))
  /\ (forall utcoffset,
         _convert_timestamp
           (PDatetime (mk_datetime ordinal (second + shift) microsecond
                                   (Some (utcoffset + shift))))
         = _convert_timestamp
             (PDatetime (mk_datetime ordinal second microsecond
                                     (Some utcoffset))))
  /\ _convert_timestamp
       (PDatetime (mk_datetime ordinal second microsecond None))
     = _convert_timestamp
         (PDatetime (mk_datetime ordinal second microsecond (Some 0))).
Proof.
  split; [|split].
  - eexists. rewrite convert_timestamp_datetime, nanos_of_micros.
    reflexivity.
  - intros utcoffset. rewrite !convert_timestamp_datetime, !nanos_of_micros.
    unfold micros_since_epoch.
    cbn [dt_ordinal dt_second dt_microsecond dt_utcoffset].
    do 2 f_equal. lia.
  - rewrite !convert_timestamp_datetime. reflexivity.
Qed.

End TimestampFacts.

(** * Further properties of the client *)

Lemma dict_set_same_value k v (d : dict) :
  dict_get k d = Some v -> dict_set k v d = d.
Proof.
  induction d as [|[k' v'] d IH]; cbn; [discriminate|].
  destruct (k =? k')%string eqn:E.
  - apply String.eqb_eq in E. intros [= ->]. now subst.
  - intros H. now rewrite IH.
Qed.

Lemma gzip_headers_once (h : dict) :
  dict_update (dict_update h gzip_headers) gzip_headers
  = dict_update h gzip_headers.
Proof.
  unfold dict_update, gzip_headers. cbn [fold_left fst snd].
  rewrite (dict_set_same_value "Accept-Encoding").
  - apply dict_set_same_value, dict_get_set_same.
  - rewrite dict_get_set_other by discriminate. apply dict_get_set_same.
Qed.

Section ClientFrame.

Context {phost : PointHost} {host : ClientHost}.

Import OpenGeminiClient.

(** The instance after [request]: with gzip the header dict the call
    works on has the gzip headers, whether or not a session is there;
    else nothing has changed. *)
Lemma request_state url method data params code header (self : t) :
  state_after (request url method data params code header self)
  = if _gzip self then
      match header with
      | None | Some SelfHeaders =>
          set_headers (dict_update (_headers self) gzip_headers) self
      | Some SelfWriteHeaders =>
          set_write_headers (dict_update (_write_headers self) gzip_headers)
                            self
      | Some (Own _) => self
      end
    else self.
Proof.
  unfold request, mbind, get, ret, lift, session_request, state_after.
  destruct (_gzip self), header as [[| |own]|]; cbn [header_update];
    cbn [_session set_headers set_write_headers];
    destruct (_session self); cbn [fst snd]; try reflexivity;
    match goal with
    | |- context [status_code ?r =? code] =>
        destruct (status_code r =? code); reflexivity
    end.
Qed.

Lemma query_state S params chunked chunk_size epoch bind_params method
    (self : t) :
  state_after (query S params chunked chunk_size epoch bind_params method self)
  = self
  \/ state_after
       (query S params chunked chunk_size epoch bind_params method self)
     = set_headers (dict_update (_headers self) gzip_headers) self
       /\ _gzip self = true.
Proof.
  unfold query, mbind, get, lift.
  destruct (query_params _ _ _ _ _ _ _) as [p| |]; cbn [state_after fst snd];
    [|now left..].
  pose proof (request_state "query" method None (Some p) 200 None self) as H.
  unfold state_after in *.
  destruct (request "query" method None (Some p) 200 None self)
    as [[res self'] sent].
  cbn [fst snd] in H. subst self'.
  destruct res as [a| |]; cbn [fst snd];
    (destruct (_gzip self) eqn:Hgz; [right; split; reflexivity | now left]).
Qed.

(** [request], [query] and [write] leave the address, the credentials,
    the database, the gzip flag and the session of the instance alone;
    without gzip they leave the whole instance as it was. *)
Theorem calls_keep_the_connection (self : t) :
  (forall url method data params code header,
      same_connection self
        (state_after (request url method data params code header self))
      /\ (_gzip self = false ->
          state_after (request url method data params code header self)
          = self))
  /\ (forall S params chunked chunk_size epoch bind_params method,
         same_connection self
           (state_after (query S params chunked chunk_size epoch bind_params
                               method self))
         /\ (_gzip self = false ->
             state_after (query S params chunked chunk_size epoch bind_params
                                method self)
             = self))
  /\ (forall L precision,
         same_connection self (state_after (write L precision self))
         /\ (_gzip self = false ->
             state_after (write L precision self) = self)).
Proof.
  split; [|split].
  - intros. rewrite request_state.
    destruct (_gzip self), header as [[| |own]|];
      (split; [repeat split | try discriminate; reflexivity]).
  - intros.
    destruct (query_state S params chunked chunk_size epoch bind_params
                          method self) as [->|[-> Hgz]].
    + split; [repeat split | reflexivity].
    + split; [repeat split | congruence].
  - intros. unfold write, mbind, get, ret.
    pose proof (request_state "write" "POST"
                  (Some (encode_utf8 (String.concat newline [L] ++ newline)))
                  (Some [ ("db", _database self); ("precision", precision) ])
                  204 (Some SelfWriteHeaders) self) as H.
    unfold state_after in *.
    destruct (request "write" "POST" _ _ 204 (Some SelfWriteHeaders) self)
      as [[res self'] sent].
    cbn [fst snd] in H. subst self'.
    destruct res; cbn [fst snd];
      destruct (_gzip self);
      (split; [repeat split | try discriminate; reflexivity]).
Qed.

(** With gzip, [request] writes the gzip headers into the header dict of
    the instance it works on, even when no session is there to send
    anything; a second call finds them and changes nothing more. *)
Theorem gzip_headers_stay (self : t) url method data params code :
  _gzip self = true ->
  let self' := state_after (request url method data params code None self) in
  dict_get "Accept-Encoding" (_headers self') = Some (PStr "gzip")
  /\ dict_get "Content-Encoding" (_headers self') = Some (PStr "gzip")
  /\ forall url' method' data' params' code',
       state_after (request url' method' data' params' code' None self')
       = self'.
Proof.
  intros Hgz self'. subst self'. rewrite request_state, Hgz.
  cbn [_headers set_headers]. split; [|split].
  - unfold dict_update, gzip_headers. cbn [fold_left fst snd].
    rewrite dict_get_set_other by discriminate. apply dict_get_set_same.
  - unfold dict_update, gzip_headers. cbn [fold_left fst snd].
    apply dict_get_set_same.
  - intros. rewrite request_state. cbn [_gzip set_headers _headers].
    rewrite Hgz, gzip_headers_once. reflexivity.
Qed.

End ClientFrame.

Section ClientCalls.

Context {phost : PointHost} {host : ClientHost}.

Import OpenGeminiClient.

Ltac dict_lookup :=
  repeat (rewrite dict_get_set_same
          || rewrite dict_get_set_other by discriminate).

(** [request] with a session: one request goes to the base URL and the
    path, with the current credentials; the answer comes back when its
    status is the expected one, and else an exception carries the status
    and the body. *)
Theorem request_checks_the_status (self : t) (session : Session) url method
    data params code header :
  _session self = Some session ->
  exists r,
    sent_by (request url method data params code header self) = [r]
    /\ rq_url r = _baseurl self ++ "/" ++ url
    /\ rq_method r = method
    /\ rq_auth r = (_username self, _password self)
    /\ (status_code (session r) = code ->
        outcome_of (request url method data params code header self)
        = Ok (session r))
    /\ (status_code (session r) <> code ->
        outcome_of (request url method data params code header self)
        = Raise (Exception (status_code (session r)) (content (session r)))).
Proof.
  intros Hs.
  destruct (request_sends self session url method data params code header Hs)
    as (self' & headers & Hreq & _).
  cbv zeta in Hreq. rewrite Hreq. unfold sent_by, outcome_of. cbn [fst snd].
  eexists. split; [reflexivity|]. cbn [rq_url rq_method rq_auth].
  repeat split.
  - intros H. apply Z.eqb_eq in H. now rewrite H.
  - intros H. apply Z.eqb_neq in H. now rewrite H.
Qed.

(** The request of [query]: to the query endpoint, with the method asked
    for, the current credentials and no body; the call returns the JSON of
    the answer when the status is 200 and raises otherwise. *)
Theorem query_request_line (self : t) (session : Session) S params chunked
    chunk_size epoch bind_params method p :
  _session self = Some session ->
  query_params self S params chunked chunk_size epoch bind_params = Ok p ->
  exists r,
    sent_by (query S params chunked chunk_size epoch bind_params method self)
    = [r]
    /\ rq_url r = _baseurl self ++ "/query"
    /\ rq_method r = method
    /\ rq_auth r = (_username self, _password self)
    /\ rq_data r = None
    /\ rq_params r = p
    /\ outcome_of
         (query S params chunked chunk_size epoch bind_params method self)
       = if status_code (session r) =? 200 then json (session r)
         else Raise (Exception (status_code (session r))
                               (content (session r))).
Proof.
  intros Hs Hp. unfold query, mbind, get, lift. rewrite Hp.
  destruct (request_sends self session "query" method None (Some p) 200 None Hs)
    as (self' & headers & Hreq & _).
  cbv zeta in Hreq. rewrite Hreq.
  match type of Hreq with
  | _ = (_, _, [?r]) => exists r
  end.
  unfold sent_by, outcome_of.
  cbn [rq_url rq_method rq_auth rq_data rq_params].
  repeat split.
  - destruct (status_code _ =? 200); reflexivity.
  - now destruct (_gzip self).
  - destruct (status_code _ =? 200); reflexivity.
Qed.

Lemma query_params_optional (self : t) S params chunked chunk_size epoch :
  exists p,
    query_params self S params chunked chunk_size epoch None = Ok p
    /\ dict_get "q" p = Some (PStr S)
    /\ dict_get "db" p
       = match dict_get "db" (match params with None => [] | Some p => p end)
         with
         | Some v => if is_None v then Some (_database self) else Some v
         | None => Some (_database self)
         end
    /\ dict_get "epoch" p
       = (if is_None epoch
          then dict_get "epoch" (match params with None => [] | Some p => p end)
          else Some epoch)
    /\ dict_get "chunked" p
       = (if chunked then Some (PStr "true")
          else dict_get "chunked"
                 (match params with None => [] | Some p => p end))
    /\ dict_get "chunk_size" p
       = (if chunked && (chunk_size >? 0) then Some (PInt chunk_size)
          else dict_get "chunk_size"
                 (match params with None => [] | Some p => p end)).
Proof.
  unfold query_params.
  set (p0 := match params with None => [] | Some p => p end).
  destruct (is_None epoch), chunked, (chunk_size >? 0);
    cbn [negb bind andb]; unfold dict_get_default; dict_lookup;
    (destruct (dict_get "db" p0) as [v|] eqn:Edb;
     [destruct (is_None v) eqn:Ev|]);
    cbn [is_None]; rewrite ?Ev;
    eexists; (split; [reflexivity|]); dict_lookup; rewrite ?Edb;
    repeat split; reflexivity.
Qed.

(** The optional parameters of [query], without bind parameters: a [db]
    of the caller that is not null is kept, and else the current database
    is sent; [epoch] is set when given; [chunked] is the text true when
    asked for, and [chunk_size] goes with it only when positive; what is
    not set stays as the caller had it. *)
Theorem query_optional_parameters (self : t) (session : Session) S params
    chunked chunk_size epoch method :
  _session self = Some session ->
  exists r,
    sent_by (query S params chunked chunk_size epoch None method self) = [r]
    /\ dict_get "q" (rq_params r) = Some (PStr S)
    /\ dict_get "db" (rq_params r)
       = match dict_get "db" (match params with None => [] | Some p => p end)
         with
         | Some v => if is_None v then Some (_database self) else Some v
         | None => Some (_database self)
         end
    /\ dict_get "epoch" (rq_params r)
       = (if is_None epoch
          then dict_get "epoch" (match params with None => [] | Some p => p end)
          else Some epoch)
    /\ dict_get "chunked" (rq_params r)
       = (if chunked then Some (PStr "true")
          else dict_get "chunked"
                 (match params with None => [] | Some p => p end))
    /\ dict_get "chunk_size" (rq_params r)
       = (if chunked && (chunk_size >? 0) then Some (PInt chunk_size)
          else dict_get "chunk_size"
                 (match params with None => [] | Some p => p end)).
Proof.
  intros Hs.
  destruct (query_params_optional self S params chunked chunk_size epoch)
    as (p & Hp & Hfacts).
  destruct (query_sends self session S params chunked chunk_size epoch None
                        method p Hs Hp) as (r & Hsent & Hr & _).
  exists r. rewrite Hr. split; [exact Hsent | exact Hfacts].
Qed.

(** With bind parameters, [query] fails before anything is sent when the
    earlier [params] entry is not a string ([TypeError]), does not decode
    (the decoder's error), or decodes to something that is not an object
    ([AttributeError]); the instance is as before. *)
Theorem query_bind_errors (self : t) S params chunked chunk_size epoch
    bind_params method :
  let prior := dict_get_default "params" (PStr "{}")
                 (match params with None => [] | Some p => p end) in
  (as_str prior = None ->
   query S params chunked chunk_size epoch (Some bind_params) method self
   = (Raise TypeError, self, []))
  /\ (forall text e,
         prior = PStr text -> json_loads text = Raise e ->
         query S params chunked chunk_size epoch (Some bind_params) method self
         = (Raise e, self, []))
  /\ (forall text v,
         prior = PStr text -> json_loads text = Ok v ->
         (forall d, v <> PDict d) ->
         query S params chunked chunk_size epoch (Some bind_params) method self
         = (Raise AttributeError, self, [])).
Proof.
  intros prior.
  assert (Hprior : forall p1,
             dict_get "params" p1
             = dict_get "params" (match params with None => [] | Some p => p end)
             -> dict_get_default "params" (PStr "{}") p1 = prior).
  { intros p1 H. subst prior. unfold dict_get_default. now rewrite H. }
  assert (Hq : forall r : result dict,
             (forall p1,
                 dict_get "params" p1
                 = dict_get "params"
                     (match params with None => [] | Some p => p end) ->
                 (text <- match as_str (dict_get_default "params" (PStr "{}") p1)
                          with
                          | Some s => Ok s
                          | None => Raise TypeError
                          end ;;
                  params_dict <- json_loads text ;;
                  match params_dict with
                  | PDict params_dict =>
                      let params_dict := dict_update params_dict bind_params in
                      text <- json_dumps (PDict params_dict) ;;
                      Ok (dict_set "params" (PStr text) p1)
                  | _ => Raise AttributeError
                  end) = match r with Ok _ => Unmodelled | _ => r end) ->
             (forall x, r <> Ok x) ->
             query S params chunked chunk_size epoch (Some bind_params) method
                   self
             = (match r with
                | Ok _ => Unmodelled
                | Raise e => Raise e
                | Unmodelled => Unmodelled
                end, self, [])).
  { intros r Hr Hnok. unfold query, mbind, get, lift, query_params.
    set (p0 := match params with None => [] | Some p => p end) in *.
    destruct (is_None epoch), chunked, (chunk_size >? 0); cbn [negb];
      (rewrite Hr by (dict_lookup; reflexivity));
      destruct r as [x| |]; try reflexivity; now destruct (Hnok x). }
  split; [|split].
  - intros Hn. apply (Hq (Raise TypeError)); [|discriminate].
    intros p1 H. rewrite (Hprior p1 H), Hn. reflexivity.
  - intros text e Ht He. apply (Hq (Raise e)); [|discriminate].
    intros p1 H. rewrite (Hprior p1 H), Ht. cbn [as_str bind].
    rewrite He. reflexivity.
  - intros text v Ht Hv Hnd. apply (Hq (Raise AttributeError)); [|discriminate].
    intros p1 H. rewrite (Hprior p1 H), Ht. cbn [as_str bind].
    rewrite Hv. cbn [bind].
    destruct v; try reflexivity. now destruct (Hnd d).
Qed.

End ClientCalls.

Section ClientAdmin.

Context {phost : PointHost} {host : ClientHost}.

Import OpenGeminiClient.

(** [switch_database] and [switch_user] send nothing and change only what
    they name; the next query carries the new database, the next request
    the new credentials. *)
Theorem switch_takes_effect (self : t) (session : Session)
    (database : pyval) (username password : string) :
  _session self = Some session ->
  sent_by (switch_database database self) = []
  /\ sent_by (switch_user username password self) = []
  /\ (forall S chunked chunk_size epoch method,
         exists r,
           sent_by (query S None chunked chunk_size epoch None method
                          (state_after (switch_database database self)))
           = [r]
           /\ dict_get "db" (rq_params r) = Some database
           /\ rq_auth r = (_username self, _password self))
  /\ (forall url method data params code header,
         exists r,
           sent_by (request url method data params code header
                            (state_after (switch_user username password self)))
           = [r]
           /\ rq_auth r = (username, password)
           /\ rq_url r = _baseurl self ++ "/" ++ url).
Proof.
  intros Hs. split; [reflexivity|]. split; [reflexivity|]. split.
  - intros S chunked chunk_size epoch method.
    set (self1 := state_after (switch_database database self)).
    assert (Hs1 : _session self1 = Some session) by exact Hs.
    destruct (query_params_plain self1 S None chunked chunk_size epoch eq_refl)
      as (p & Hp & _ & Hdb).
    unfold query, mbind, get, lift. rewrite Hp.
    destruct (request_sends self1 session "query" method None (Some p) 200
                            None Hs1) as (self' & headers & Hreq & _).
    cbv zeta in Hreq. rewrite Hreq.
    match type of Hreq with
    | _ = (_, _, [?r]) => exists r
    end.
    unfold sent_by. cbn [rq_params rq_auth]. repeat split.
    + destruct (status_code _ =? 200); reflexivity.
    + exact Hdb.
  - intros url method data params code header.
    set (self1 := state_after (switch_user username password self)).
    assert (Hs1 : _session self1 = Some session) by exact Hs.
    destruct (request_sends self1 session url method data params code header
                            Hs1) as (self' & headers & Hreq & _).
    cbv zeta in Hreq. rewrite Hreq.
    match type of Hreq with
    | _ = (_, _, [?r]) => exists r
    end.
    repeat split.
Qed.

(** A statement handed on by an administrative helper: one POST to the
    query endpoint with the statement under [q] and the current database
    under [db]. *)
Lemma post_statement_sends (self : t) (session : Session) (q : string) :
  _session self = Some session ->
  exists r,
    sent_by (post_statement (Ok q) self) = [r]
    /\ rq_method r = "POST"
    /\ rq_url r = _baseurl self ++ "/query"
    /\ dict_get "q" (rq_params r) = Some (PStr q)
    /\ dict_get "db" (rq_params r) = Some (_database self).
Proof.
  intros Hs.
  destruct (query_params_plain self q None false 0 PNone eq_refl)
    as (p & Hp & Hq & Hdb).
  destruct (query_sends self session q None false 0 PNone None "POST" p Hs Hp)
    as (r & Hsent & Hr & Hm & Hu).
  exists r. rewrite Hr. repeat split; try assumption.
  unfold post_statement, mbind, lift, ret, sent_by in *.
  destruct (query q None false 0 PNone None "POST" self) as [[res s'] sent].
  cbn [snd] in Hsent. subst sent.
  destruct res; reflexivity.
Qed.

(** The database and user helpers each send one POST to the query
    endpoint whose [q] is the verb followed by the arguments as given;
    [show_database] sends its fixed statement with GET. *)
Theorem database_and_user_helpers_send (self : t) (session : Session)
    (name password : string) :
  _session self = Some session ->
  (exists r,
      sent_by (create_database (PStr name) self) = [r]
      /\ rq_method r = "POST" /\ rq_url r = _baseurl self ++ "/query"
      /\ dict_get "q" (rq_params r) = Some (PStr ("CREATE DATABASE " ++ name)))
  /\ (exists r,
         sent_by (drop_database (PStr name) self) = [r]
         /\ rq_method r = "POST" /\ rq_url r = _baseurl self ++ "/query"
         /\ dict_get "q" (rq_params r) = Some (PStr ("DROP DATABASE " ++ name)))
  /\ (exists r,
         sent_by (create_user (PStr name) (PStr password) (PBool true) self)
         = [r]
         /\ rq_method r = "POST" /\ rq_url r = _baseurl self ++ "/query"
         /\ dict_get "q" (rq_params r)
            = Some (PStr ("CREATE USER " ++ name ++ " WITH PASSWORD "
                          ++ password ++ " WITH ALL PRIVILEGES")))
  /\ (exists r,
         sent_by (drop_user (PStr name) self) = [r]
         /\ rq_method r = "POST" /\ rq_url r = _baseurl self ++ "/query"
         /\ dict_get "q" (rq_params r) = Some (PStr ("DROP USER " ++ name)))
  /\ (exists r,
         sent_by (show_database self) = [r]
         /\ rq_method r = "GET" /\ rq_url r = _baseurl self ++ "/query"
         /\ dict_get "q" (rq_params r) = Some (PStr "SHOW DATABASES")).
Proof.
  intros Hs.
  assert (Hpost : forall q,
             exists r,
               sent_by (post_statement (Ok q) self) = [r]
               /\ rq_method r = "POST" /\ rq_url r = _baseurl self ++ "/query"
               /\ dict_get "q" (rq_params r) = Some (PStr q)).
  { intros q. destruct (post_statement_sends self session q Hs)
      as (r & H1 & H2 & H3 & H4 & _). exists r. auto. }
  split; [apply Hpost|]. split; [apply Hpost|].
  split.
  { destruct (Hpost ("CREATE USER " ++ name ++ " WITH PASSWORD "
                     ++ password ++ " WITH ALL PRIVILEGES"))
      as (r & H1 & H2 & H3 & H4).
    exists r. repeat split; try assumption.
    unfold create_user, create_user_statement.
    cbn [py_str bind truthy]. rewrite <- H1. f_equal. f_equal.
    now rewrite !append_assoc. }
  split; [apply Hpost|].
  destruct (query_params_plain self "SHOW DATABASES" None false 0 PNone eq_refl)
    as (p & Hp & Hq & _).
  destruct (query_sends self session "SHOW DATABASES" None false 0 PNone None
                        "GET" p Hs Hp) as (r & Hsent & Hr & Hm & Hu).
  exists r. rewrite Hr. auto.
Qed.

(** A retention policy helper called without a database on a client that
    has none, or with a database that is not a string, raises
    [AttributeError] whatever the other arguments are; nothing is sent
    and the instance is as before. *)
Theorem retention_policy_needs_a_database (self : t)
    (name replication duration database default shard_duration : pyval) :
  as_str (if is_None database then _database self else database) = None ->
  create_retention_policy name replication duration database default
                          shard_duration self
  = (Raise AttributeError, self, [])
  /\ alter_retention_policy name database duration replication default
                            shard_duration self
     = (Raise AttributeError, self, [])
  /\ drop_retention_policy name database self
     = (Raise AttributeError, self, [])
  /\ show_retention_policy database self
     = (Raise AttributeError, self, []).
Proof.
  intros Hdb. repeat split.
  - unfold create_retention_policy, create_retention_policy_statement,
      post_statement, mbind, get, lift, translate_name.
    rewrite Hdb. destruct (as_str name); reflexivity.
  - unfold alter_retention_policy, alter_retention_policy_statement,
      post_statement, mbind, get, lift, translate_name.
    rewrite Hdb. destruct (as_str name); reflexivity.
  - unfold drop_retention_policy, drop_retention_policy_statement,
      post_statement, mbind, get, lift, translate_name.
    rewrite Hdb. destruct (as_str name); reflexivity.
  - unfold show_retention_policy, show_retention_policy_statement,
      mbind, get, lift, translate_name.
    rewrite Hdb. reflexivity.
Qed.

(** The DEFAULT clause: [create_retention_policy] appends it for any
    value that counts as true, [alter_retention_policy] only for [True]
    itself. *)
Theorem default_clause (self : t)
    (name replication duration database default shard_duration : pyval) :
  create_retention_policy_statement self name replication duration database
                                    default shard_duration
  = (base <- create_retention_policy_statement self name replication duration
                                                database PNone shard_duration ;;
     Ok (if truthy default then base ++ " DEFAULT" else base))
  /\ alter_retention_policy_statement self name database duration replication
                                      default shard_duration
     = (base <- alter_retention_policy_statement self name database duration
                                                  replication PNone
                                                  shard_duration ;;
        Ok (match default with
            | PBool true => base ++ " DEFAULT"
            | _ => base
            end)).
Proof.
  split.
  - unfold create_retention_policy_statement.
    destruct (translate_name name); cbn [bind]; try reflexivity.
    destruct (translate_name _); cbn [bind]; try reflexivity.
    destruct (py_str duration); cbn [bind]; try reflexivity.
    destruct (py_str replication); cbn [bind truthy]; reflexivity.
  - unfold alter_retention_policy_statement.
    destruct (translate_name name); cbn [bind]; try reflexivity.
    destruct (translate_name _); cbn [bind]; try reflexivity.
    destruct (truthy duration); [destruct (py_str duration)|];
      cbn [bind]; try reflexivity;
      (destruct (truthy shard_duration); [destruct (py_str shard_duration)|];
       cbn [bind]; try reflexivity;
       (destruct (truthy replication); [destruct (py_str replication)|];
        cbn [bind]; reflexivity)).
Qed.

(** An optional clause is left out for any value that counts as false,
    such as an empty string or zero, just as for [None]. *)
Theorem false_arguments_are_left_out (self : t)
    (name replication duration database default shard_duration : pyval) :
  (truthy duration = false ->
   alter_retention_policy_statement self name database duration replication
                                    default shard_duration
   = alter_retention_policy_statement self name database PNone replication
                                      default shard_duration)
  /\ (truthy replication = false ->
      alter_retention_policy_statement self name database duration replication
                                       default shard_duration
      = alter_retention_policy_statement self name database duration PNone
                                         default shard_duration)
  /\ (truthy shard_duration = false ->
      alter_retention_policy_statement self name database duration replication
                                       default shard_duration
      = alter_retention_policy_statement self name database duration
                                         replication default PNone
      /\ create_retention_policy_statement self name replication duration
                                           database default shard_duration
         = create_retention_policy_statement self name replication duration
                                             database default PNone).
Proof.
  unfold alter_retention_policy_statement, create_retention_policy_statement.
  split; [|split].
  - intros H. rewrite H. reflexivity.
  - intros H. rewrite H. reflexivity.
  - intros H. rewrite H. split; reflexivity.
Qed.

End ClientAdmin.

(** *** Further properties on concrete inputs *)

Lemma escape_field_value_injective_witness :
  translate escape_field_value ("say " ++ dq ++ "hi" ++ dq ++ " \ bye")
  = "say \" ++ dq ++ "hi\" ++ dq ++ " \\ bye"
  /\ forall s,
       translate escape_field_value s
       = "say \" ++ dq ++ "hi\" ++ dq ++ " \\ bye" ->
       s = "say " ++ dq ++ "hi" ++ dq ++ " \ bye".
Proof.
  split; [reflexivity|].
  intros s H.
  apply (escape_field_value_injective
           s ("say " ++ dq ++ "hi" ++ dq ++ " \ bye")).
  rewrite H. reflexivity.
Defined.

Lemma calls_keep_the_connection_witness :
  state_after (OpenGeminiClient.query "select * from weather" None true 100
                 (PStr "ms") None "GET" example_client)
  = example_client
  /\ state_after (OpenGeminiClient.write weather_line (PStr "ns")
                    example_client)
     = example_client
  /\ same_connection example_gzip_client
       (state_after (OpenGeminiClient.write weather_line (PStr "ns")
                       example_gzip_client)).
Proof.
  destruct (@calls_keep_the_connection example_client_host example_client)
    as (_ & Hq & Hw).
  destruct (@calls_keep_the_connection example_client_host example_gzip_client)
    as (_ & _ & Hwz).
  split; [|split].
  - apply (proj2 (Hq "select * from weather" None true 100 (PStr "ms") None
                     "GET")).
    reflexivity.
  - apply (proj2 (Hw weather_line (PStr "ns"))). reflexivity.
  - apply (proj1 (Hwz weather_line (PStr "ns"))).
Defined.

Lemma gzip_headers_stay_witness :
  dict_get "Content-Encoding"
    (OpenGeminiClient._headers
       (state_after (OpenGeminiClient.request "ping" "GET" None None 204 None
                       example_gzip_client)))
  = Some (PStr "gzip").
Proof.
  exact (proj1 (proj2 (@gzip_headers_stay example_client_host
                         example_gzip_client "ping" "GET" None None 204
                         eq_refl))).
Defined.

Lemma request_checks_the_status_witness :
  exists r,
    sent_by (OpenGeminiClient.request "ping" "GET" None None 204 None
               example_client) = [r]
    /\ rq_url r = "http://localhost:8086/ping"
    /\ outcome_of (OpenGeminiClient.request "ping" "GET" None None 204 None
                     example_client)
       = Raise (Exception 200 []).
Proof.
  destruct (@request_checks_the_status example_client_host example_client
              example_session "ping" "GET" None None 204 None eq_refl)
    as (r & Hsent & Hurl & _ & _ & _ & Hbad).
  exists r. split; [exact Hsent|]. split; [exact Hurl|].
  injection Hsent as <-. apply Hbad. discriminate.
Defined.

Lemma query_request_line_witness :
  exists r,
    sent_by (OpenGeminiClient.query "select * from weather" None false 0
               PNone None "GET" example_client) = [r]
    /\ rq_url r = "http://localhost:8086/query"
    /\ rq_auth r = ("username", "password")
    /\ rq_data r = None
    /\ outcome_of (OpenGeminiClient.query "select * from weather" None false
                     0 PNone None "GET" example_client)
       = Ok (PDict []).
Proof.
  destruct (@query_request_line example_client_host example_client
              example_session "select * from weather" None false 0 PNone None
              "GET" _ eq_refl eq_refl)
    as (r & Hsent & Hurl & _ & Hauth & Hdata & _ & Hout).
  exists r. split; [exact Hsent|]. split; [exact Hurl|].
  split; [exact Hauth|]. split; [exact Hdata|].
  rewrite Hout. unfold example_session. rewrite Hdata. reflexivity.
Defined.

Lemma query_optional_parameters_witness :
  exists r,
    sent_by (OpenGeminiClient.query "select * from weather"
               (Some [ ("db", PStr "other"); ("chunk_size", PInt 5) ])
               true 0 (PStr "ms") None "GET" example_client) = [r]
    /\ dict_get "db" (rq_params r) = Some (PStr "other")
    /\ dict_get "epoch" (rq_params r) = Some (PStr "ms")
    /\ dict_get "chunked" (rq_params r) = Some (PStr "true")
    /\ dict_get "chunk_size" (rq_params r) = Some (PInt 5).
Proof.
  destruct (@query_optional_parameters example_client_host example_client
              example_session "select * from weather"
              (Some [ ("db", PStr "other"); ("chunk_size", PInt 5) ])
              true 0 (PStr "ms") "GET" eq_refl)
    as (r & Hsent & _ & Hdb & He & Hc & Hs).
  exists r. repeat split; assumption.
Defined.

Lemma query_bind_errors_witness :
  OpenGeminiClient.query "select 1" (Some [ ("params", PInt 3) ]) false 0
    PNone (Some [ ("a", PInt 1) ]) "GET" example_client
  = (Raise TypeError, example_client, [])
  /\ OpenGeminiClient.query "select 1" (Some [ ("params", PStr "{a") ]) false
       0 PNone (Some [ ("a", PInt 1) ]) "GET" example_client
     = (Raise (ValueError (PStr "{a")), example_client, []).
Proof.
  split.
  - apply (proj1 (@query_bind_errors example_client_host example_client
                    "select 1" (Some [ ("params", PInt 3) ]) false 0 PNone
                    [ ("a", PInt 1) ] "GET")).
    reflexivity.
  - apply (proj1 (proj2 (@query_bind_errors example_client_host
                           example_client "select 1"
                           (Some [ ("params", PStr "{a") ]) false 0 PNone
                           [ ("a", PInt 1) ] "GET"))
             "{a" (ValueError (PStr "{a")));
      reflexivity.
Defined.

Lemma switch_takes_effect_witness :
  (exists r,
      sent_by (OpenGeminiClient.query "select 1" None false 0 PNone None "GET"
                 (state_after
                    (OpenGeminiClient.switch_database (PStr "another_database")
                       example_client))) = [r]
      /\ dict_get "db" (rq_params r) = Some (PStr "another_database"))
  /\ (exists r,
         sent_by (OpenGeminiClient.request "ping" "GET" None None 204 None
                    (state_after
                       (OpenGeminiClient.switch_user "another_username"
                          "another_password" example_client))) = [r]
         /\ rq_auth r = ("another_username", "another_password")).
Proof.
  destruct (@switch_takes_effect example_client_host example_client
              example_session (PStr "another_database") "another_username"
              "another_password" eq_refl) as (_ & _ & Hdb & Huser).
  split.
  - destruct (Hdb "select 1" false 0 PNone "GET") as (r & Hsent & Hd & _).
    exists r. split; assumption.
  - destruct (Huser "ping" "GET" None None 204 None) as (r & Hsent & Ha & _).
    exists r. split; assumption.
Defined.

Lemma database_and_user_helpers_send_witness :
  exists r,
    sent_by (OpenGeminiClient.create_database (PStr "my db") example_client)
    = [r]
    /\ rq_method r = "POST"
    /\ dict_get "q" (rq_params r) = Some (PStr "CREATE DATABASE my db").
Proof.
  destruct (proj1 (@database_and_user_helpers_send example_host
                     example_client_host example_client example_session
                     "my db" "pw" eq_refl))
    as (r & Hsent & Hm & _ & Hq).
  exists r. repeat split; assumption.
Defined.

Lemma retention_policy_needs_a_database_witness :
  OpenGeminiClient.create_retention_policy (PStr "rp") (PInt 1) (PStr "1h")
    PNone (PBool false) PNone default_client
  = (Raise AttributeError, default_client, [])
  /\ OpenGeminiClient.show_retention_policy (PInt 5) example_client
     = (Raise AttributeError, example_client, []).
Proof.
  split.
  - apply (proj1 (@retention_policy_needs_a_database example_host
                    example_client_host default_client (PStr "rp") (PInt 1)
                    (PStr "1h") PNone (PBool false) PNone eq_refl)).
  - apply (proj2 (proj2 (proj2
             (@retention_policy_needs_a_database example_host
                example_client_host example_client PNone PNone PNone (PInt 5)
                PNone PNone eq_refl)))).
Defined.

Lemma false_arguments_are_left_out_witness :
  OpenGeminiClient.alter_retention_policy_statement example_client (PStr "rp")
    PNone (PStr "") (PInt 0) PNone (PStr "")
  = Ok ("ALTER RETENTION POLICY " ++ dq ++ "rp" ++ dq
        ++ " ON " ++ dq ++ "database" ++ dq)
  /\ OpenGeminiClient.create_retention_policy_statement example_client
       (PStr "rp") (PInt 1) (PStr "1h") PNone (PBool false) (PStr "")
     = Ok ("CREATE RETENTION POLICY " ++ dq ++ "rp" ++ dq
           ++ " ON " ++ dq ++ "database" ++ dq
           ++ " DURATION 1h REPLICATION 1").
Proof.
  split.
  - rewrite (proj1 (@false_arguments_are_left_out example_host example_client
                      (PStr "rp") (PInt 0) (PStr "") PNone PNone (PStr "")))
      by reflexivity.
    reflexivity.
  - rewrite (proj2 (proj2 (proj2 (@false_arguments_are_left_out example_host
                      example_client (PStr "rp") (PInt 1) (PStr "1h") PNone
                      (PBool false) (PStr ""))) eq_refl)).
    reflexivity.
Defined.
